(** * HostSupport/src/ofxhClip.cpp: clips and images of the OpenFX host

    A shallow embedding of [OFX::Host::ImageEffect]'s clip descriptor, clip
    instance and image classes, and the properties their specification
    states about them. *)

From Stdlib Require Import ZArith Lia Ascii String.
From Stdlib Require Import SpecFloat.
From stdpp Require Import base option list gmap strings.

Local Open Scope Z_scope.

(** ** Scalars of the C API *)

(** [OfxStatus] is [int]. *)
Definition OfxStatus := Z.

(** A C++ [double], passed around but never computed with in this file. *)
Definition double := spec_float.

(** An opaque address (a [void*] or a handle). *)
Definition pointer := Z.

(** [std::string::c_str()] read back as a [const char*]: the characters
    before the first NUL. *)
Fixpoint c_str (s : string) : string :=
  match s with
  | EmptyString => EmptyString
  | String a r => if Ascii.eqb a Ascii.zero then EmptyString else String a (c_str r)
  end.

(** ** Constants of ofxCore.h and ofxImageEffect.h

    The headers are not part of the translated file; the values are those
    the OpenFX headers give the macros. *)
Module Ofx.
Local Open Scope string_scope.

Definition kOfxStatOK : OfxStatus := 0.
Definition kOfxStatFailed : OfxStatus := 1.
Definition kOfxStatErrUnknown : OfxStatus := 3.
Definition kOfxStatErrMissingHostFeature : OfxStatus := 4.
Definition kOfxStatErrBadIndex : OfxStatus := 10.
Definition kOfxStatErrValue : OfxStatus := 11.

Definition kOfxPropType := "OfxPropType".
Definition kOfxPropName := "OfxPropName".
Definition kOfxPropLabel := "OfxPropLabel".
Definition kOfxPropShortLabel := "OfxPropShortLabel".
Definition kOfxPropLongLabel := "OfxPropLongLabel".
Definition kOfxPropChangeReason := "OfxPropChangeReason".
Definition kOfxPropTime := "OfxPropTime".
Definition kOfxTypeClip := "OfxTypeClip".
Definition kOfxTypeImage := "OfxTypeImage".
Definition kOfxActionInstanceChanged := "OfxActionInstanceChanged".

Definition kOfxImageEffectPropSupportedComponents := "OfxImageEffectPropSupportedComponents".
Definition kOfxImageEffectPropTemporalClipAccess := "OfxImageEffectPropTemporalClipAccess".
Definition kOfxImageClipPropOptional := "OfxImageClipPropOptional".
Definition kOfxImageClipPropIsMask := "OfxImageClipPropIsMask".
Definition kOfxImageClipPropFieldExtraction := "OfxImageClipPropFieldExtraction".
Definition kOfxImageEffectPropSupportsTiles := "OfxImageEffectPropSupportsTiles".

Definition kOfxImageEffectPropPixelDepth := "OfxImageEffectPropPixelDepth".
Definition kOfxImageEffectPropComponents := "OfxImageEffectPropComponents".
Definition kOfxImageClipPropUnmappedPixelDepth := "OfxImageClipPropUnmappedPixelDepth".
Definition kOfxImageClipPropUnmappedComponents := "OfxImageClipPropUnmappedComponents".
Definition kOfxImageEffectPropPreMultiplication := "OfxImageEffectPropPreMultiplication".
Definition kOfxImagePropPixelAspectRatio := "OfxImagePropPixelAspectRatio".
Definition kOfxImageEffectPropFrameRate := "OfxImageEffectPropFrameRate".
Definition kOfxImageEffectPropFrameRange := "OfxImageEffectPropFrameRange".
Definition kOfxImageClipPropFieldOrder := "OfxImageClipPropFieldOrder".
Definition kOfxImageClipPropConnected := "OfxImageClipPropConnected".
Definition kOfxImageEffectPropUnmappedFrameRange := "OfxImageEffectPropUnmappedFrameRange".
Definition kOfxImageEffectPropUnmappedFrameRate := "OfxImageEffectPropUnmappedFrameRate".
Definition kOfxImageClipPropContinuousSamples := "OfxImageClipPropContinuousSamples".

Definition kOfxImageEffectPropRenderScale := "OfxImageEffectPropRenderScale".
Definition kOfxImagePropBounds := "OfxImagePropBounds".
Definition kOfxImagePropRegionOfDefinition := "OfxImagePropRegionOfDefinition".
Definition kOfxImagePropRowBytes := "OfxImagePropRowBytes".
Definition kOfxImagePropField := "OfxImagePropField".
Definition kOfxImagePropUniqueIdentifier := "OfxImagePropUniqueIdentifier".
Definition kOfxImagePropData := "OfxImagePropData".

Definition kOfxBitDepthNone := "OfxBitDepthNone".
Definition kOfxImageComponentNone := "OfxImageComponentNone".
Definition kOfxImageComponentRGBA := "OfxImageComponentRGBA".
Definition kOfxImageComponentRGB := "OfxImageComponentRGB".
Definition kOfxImageComponentAlpha := "OfxImageComponentAlpha".
Definition kOfxImageOpaque := "OfxImageOpaque".
Definition kOfxImageFieldNone := "OfxFieldNone".
Definition kOfxImageFieldDoubled := "OfxFieldDoubled".
End Ofx.
Export Ofx.

(** ** Outcomes of a call

    A call returns, throws a [Property::Exception] carrying a status, or has
    no defined behaviour. *)
Inductive Fault :=
| NullEffectInstance (* a member call through a null [_effectInstance] *)
| OutOfBounds
| AssertionFailure
| UseAfterFree.

Inductive result (A : Type) :=
| Ok (a : A)
| Throw (st : OfxStatus)
| Undefined (f : Fault).
Arguments Ok {A} a.
Arguments Throw {A} st.
Arguments Undefined {A} f.

Definition bind {A B : Type} (r : result A) (k : A -> result B) : result B :=
  match r with
  | Ok a => k a
  | Throw st => Throw st
  | Undefined f => Undefined f
  end.

Notation "x <-- r ;; k" := (bind r (fun x => k))
  (at level 100, r at next level, right associativity).

(** [p[i] = v] on a buffer of [length values] elements. *)
Definition poke {A : Type} (values : list A) (i : nat) (v : A) : result (list A) :=
  if decide (i < length values)%nat then Ok (<[i:=v]> values) else Undefined OutOfBounds.

(** [a[n]] for an [int n] on an array of [length a] elements. *)
Definition peek {A : Type} (a : list A) (n : Z) : result A :=
  if decide (n < 0) then Undefined OutOfBounds
  else match a !! Z.to_nat n with
       | Some v => Ok v
       | None => Undefined OutOfBounds
       end.

(** [atoi] and [atof] on the plain decimal literals the schema tables use:
    an optional sign, digits, and for [atof] an optional fraction. *)
Definition digit_of (a : ascii) : option Z :=
  let n := Z.of_nat (nat_of_ascii a) in
  if decide (48 <= n <= 57) then Some (n - 48) else None.

Fixpoint read_digits (s : string) (acc : Z) (count : Z) : Z * Z * string :=
  match s with
  | EmptyString => (acc, count, s)
  | String a r =>
      match digit_of a with
      | Some d => read_digits r (10 * acc + d) (count + 1)
      | None => (acc, count, s)
      end
  end.

Definition read_sign (s : string) : bool * string :=
  match s with
  | String "-"%char r => (true, r)
  | String "+"%char r => (false, r)
  | _ => (false, s)
  end.

Definition atoi (s : string) : Z :=
  let '(neg, r) := read_sign s in
  let '(m, _, _) := read_digits r 0 0 in
  if neg then - m else m.

Definition double_of_Z (z : Z) : double := binary_normalize 53 1024 z 0 false.

Definition atof (s : string) : double :=
  let '(neg, r) := read_sign s in
  let '(m, _, r1) := read_digits r 0 0 in
  let '(m', e) :=
    match r1 with
    | String "."%char r2 => let '(m2, e, _) := read_digits r2 m 0 in (m2, e)
    | _ => (m, 0)
    end in
  let q := SFdiv 53 1024 (double_of_Z m') (double_of_Z (10 ^ e)) in
  if neg then SFopp q else q.

(** ** The property bag *)

(** [Property::Set] and its properties are declared in ofxhPropertySuite.h,
    which is not part of the translated file; the module below models them
    from the specification's description of the bag.  Only reads and in-range
    writes of declared keys are relied upon by the theorems. *)
Module Property.

Inductive TypeEnum := eNone | eInt | eDouble | eString | ePointer.

(** A row of a schema table; [defaultValue] is a [const char*]: [None] for
    [NULL], else the characters it points at, of which a string property
    keeps those before the first NUL. *)
Record PropSpec := {
  name : string;
  type : TypeEnum;
  dimension : Z;
  readonly : bool;
  defaultValue : option string
}.

Inductive Values :=
| IntValues (v : list Z)
| DoubleValues (v : list double)
| StringValues (v : list string)
| PointerValues (v : list pointer).

(** Modelled from the spec: a property of [Property::Set]
    (ofxhPropertySuite.h is missing): a typed value vector with its arity,
    its plug-in writability, and whether a get hook computes its value. *)
Record Property := {
  _dimension : Z;
  _pluginReadOnly : bool;
  _getHook : bool;
  _value : Values
}.

Definition getType (p : Property) : TypeEnum :=
  match _value p with
  | IntValues _ => eInt
  | DoubleValues _ => eDouble
  | StringValues _ => eString
  | PointerValues _ => ePointer
  end.

Definition setPluginReadOnly (v : bool) (p : Property) : Property :=
  {| _dimension := _dimension p; _pluginReadOnly := v;
     _getHook := _getHook p; _value := _value p |}.

Definition installGetHook (p : Property) : Property :=
  {| _dimension := _dimension p; _pluginReadOnly := _pluginReadOnly p;
     _getHook := true; _value := _value p |}.

Definition withValue (v : Values) (p : Property) : Property :=
  {| _dimension := _dimension p; _pluginReadOnly := _pluginReadOnly p;
     _getHook := _getHook p; _value := v |}.

(** [PropertyMap] is [std::map<std::string, Property*>]. *)
Abbreviation PropertyMap := (gmap string Property).
Abbreviation Set_ := (gmap string Property).

Definition defaultString (spec : PropSpec) : string :=
  match defaultValue spec with Some s => s | None => EmptyString end.

Definition initialValues (spec : PropSpec) : option Values :=
  let n := Z.to_nat (dimension spec) in
  match type spec with
  | eInt => Some (IntValues (replicate n (atoi (defaultString spec))))
  | eDouble => Some (DoubleValues (replicate n (atof (defaultString spec))))
  | eString => Some (StringValues (replicate n (c_str (defaultString spec))))
  | ePointer => Some (PointerValues (replicate n 0))
  | eNone => None
  end.

(** Modelled from the spec: [Property::Set::createProperty]
    (ofxhPropertySuite.cpp is missing): a key of the schema enters the map
    with its arity, writability and default; a key already there is kept. *)
Definition createProperty (spec : PropSpec) (s : Set_) : Set_ :=
  match s !! name spec, initialValues spec with
  | None, Some v =>
      <[name spec := {| _dimension := dimension spec;
                        _pluginReadOnly := readonly spec;
                        _getHook := false;
                        _value := v |}]> s
  | _, _ => s
  end.

Definition addProperties (specs : list PropSpec) (s : Set_) : Set_ :=
  foldl (fun acc spec => createProperty spec acc) s specs.

(** [Set(const PropSpec spec[])]. *)
Definition fromSpec (specs : list PropSpec) : Set_ := addProperties specs ∅.

Definition setGetHook (name : string) (s : Set_) : Set_ :=
  alter installGetHook name s.

(** The interface a get hook implements. *)
Record GetHook := {
  hookStringProperty : string -> Z -> result string;
  hookIntProperty : string -> Z -> result Z;
  hookDoubleProperty : string -> Z -> result double
}.

Definition readAt {A : Type} (l : list A) (index : Z) : result A :=
  if decide (index < 0) then Throw kOfxStatErrBadIndex
  else match l !! Z.to_nat index with
       | Some v => Ok v
       | None => Throw kOfxStatErrBadIndex
       end.

(** Modelled from the spec: the typed readers of [Property::Set]
    (ofxhPropertySuite.cpp is missing): a read of a key with a get hook is
    routed to the hook, any other read returns the stored element; errors
    are thrown upward. *)
Definition getStringProperty (hook : option GetHook) (s : Set_)
    (name : string) (index : Z) : result string :=
  match s !! name with
  | Some p =>
      match _value p with
      | StringValues l =>
          match _getHook p, hook with
          | true, Some h => hookStringProperty h name index
          | _, _ => readAt l index
          end
      | _ => Throw kOfxStatErrUnknown
      end
  | None => Throw kOfxStatErrUnknown
  end.

Definition getIntProperty (hook : option GetHook) (s : Set_)
    (name : string) (index : Z) : result Z :=
  match s !! name with
  | Some p =>
      match _value p with
      | IntValues l =>
          match _getHook p, hook with
          | true, Some h => hookIntProperty h name index
          | _, _ => readAt l index
          end
      | _ => Throw kOfxStatErrUnknown
      end
  | None => Throw kOfxStatErrUnknown
  end.

Definition getDoubleProperty (hook : option GetHook) (s : Set_)
    (name : string) (index : Z) : result double :=
  match s !! name with
  | Some p =>
      match _value p with
      | DoubleValues l =>
          match _getHook p, hook with
          | true, Some h => hookDoubleProperty h name index
          | _, _ => readAt l index
          end
      | _ => Throw kOfxStatErrUnknown
      end
  | None => Throw kOfxStatErrUnknown
  end.

(** [v[index] = value], the vector of a variable-arity property growing
    to hold the index. *)
Definition writeAt {A : Type} (fill : A) (variable : bool) (l : list A)
    (index : Z) (value : A) : list A :=
  if decide (index < 0) then l
  else
    let i := Z.to_nat index in
    if decide (i < length l)%nat then <[i := value]> l
    else if variable then l ++ replicate (i - length l) fill ++ [value]
    else l.

Definition isVariable (p : Property) : bool := bool_decide (_dimension p = 0).

(** Modelled from the spec: the typed host-side writers of [Property::Set]
    (ofxhPropertySuite.cpp is missing): they store the value at the index of
    a declared key of that type whatever its plug-in read-only flag, and
    leave the bag as it is when the write cannot be carried out. *)
Definition setStringProperty (name : string) (value : string) (index : Z)
    (s : Set_) : Set_ :=
  match s !! name with
  | Some p =>
      match _value p with
      | StringValues l =>
          <[name := withValue (StringValues (writeAt EmptyString (isVariable p) l index value)) p]> s
      | _ => s
      end
  | None => s
  end.

Definition setIntProperty (name : string) (value : Z) (index : Z)
    (s : Set_) : Set_ :=
  match s !! name with
  | Some p =>
      match _value p with
      | IntValues l =>
          <[name := withValue (IntValues (writeAt 0 (isVariable p) l index value)) p]> s
      | _ => s
      end
  | None => s
  end.

Definition setDoubleProperty (name : string) (value : double) (index : Z)
    (s : Set_) : Set_ :=
  match s !! name with
  | Some p =>
      match _value p with
      | DoubleValues l =>
          <[name := withValue (DoubleValues (writeAt (S754_zero false) (isVariable p) l index value)) p]> s
      | _ => s
      end
  | None => s
  end.

Definition setPointerProperty (name : string) (value : pointer) (index : Z)
    (s : Set_) : Set_ :=
  match s !! name with
  | Some p =>
      match _value p with
      | PointerValues l =>
          <[name := withValue (PointerValues (writeAt 0 (isVariable p) l index value)) p]> s
      | _ => s
      end
  | None => s
  end.

(** [setDoublePropertyN(name, values, count)] writes [values[0..count)]. *)
Definition setDoublePropertyN (name : string) (values : list double)
    (count : Z) (s : Set_) : Set_ :=
  foldl (fun acc iv => setDoubleProperty name iv.2 (Z.of_nat iv.1) acc) s
    (imap (fun i v => (i, v)) (take (Z.to_nat count) values)).

Definition fetchStringProperty (name : string) (s : Set_) : option (list string) :=
  match s !! name with
  | Some p => match _value p with StringValues l => Some l | _ => None end
  | None => None
  end.

Fixpoint indexOf (value : string) (l : list string) (i : Z) : Z :=
  match l with
  | [] => -1
  | x :: r => if String.eqb x value then i else indexOf value r (i + 1)
  end.

(** Modelled from the spec: [Property::Set::findStringPropValueIndex]
    (ofxhPropertySuite.cpp is missing): the position of the value in the
    key's list, [-1] when it does not appear. *)
Definition findStringPropValueIndex (name : string) (value : string)
    (s : Set_) : Z :=
  match fetchStringProperty name s with
  | Some l => indexOf value l 0
  | None => -1
  end.

End Property.



(** A row [{ name, type, dimension, readonly, default }] of a schema table,
    and one whose default is [NULL]. *)
Definition row (n : string) (t : Property.TypeEnum) (d : Z) (r : bool)
    (v : string) : Property.PropSpec :=
  {| Property.name := n; Property.type := t; Property.dimension := d;
     Property.readonly := r; Property.defaultValue := Some v |}.
Arguments row n%_string t d%_Z r v%_string.

Definition rowNull (n : string) (t : Property.TypeEnum) (d : Z) (r : bool)
    : Property.PropSpec :=
  {| Property.name := n; Property.type := t; Property.dimension := d;
     Property.readonly := r; Property.defaultValue := None |}.

(** ** The effect instance a clip belongs to

    [ImageEffect::Instance] is declared in ofxhImageEffect.h, which is not
    part of the translated file; the clip uses the three members below, and
    they are taken as given. *)
Record Instance := {
  getHandle : pointer;
  mainEntry : string -> pointer -> option (gmap string Property.Property) ->
              option (gmap string Property.Property) -> OfxStatus;
  isChromaticComponent : string -> bool
}.

(** ** ClipBase: what descriptors and instances share *)

(** properties common to the descriptor and instance *)
Definition clipDescriptorStuffs : list Property.PropSpec := [
  row kOfxPropType Property.eString 1 true kOfxTypeClip;
  row kOfxPropName Property.eString 1 true "SET ME ON CONSTRUCTION";
  row kOfxPropLabel Property.eString 1 false EmptyString;
  row kOfxPropShortLabel Property.eString 1 false EmptyString;
  row kOfxPropLongLabel Property.eString 1 false EmptyString;
  row kOfxImageEffectPropSupportedComponents Property.eString 0 false EmptyString;
  row kOfxImageEffectPropTemporalClipAccess Property.eInt 1 false "0";
  row kOfxImageClipPropOptional Property.eInt 1 false "0";
  row kOfxImageClipPropIsMask Property.eInt 1 false "0";
  row kOfxImageClipPropFieldExtraction Property.eString 1 false kOfxImageFieldDoubled;
  row kOfxImageEffectPropSupportsTiles Property.eInt 1 false "1"
].

Record ClipBase := {
  _properties : gmap string Property.Property
}.

(** base ctor, for a descriptor *)
Definition ClipBase_new : ClipBase :=
  {| _properties := Property.fromSpec clipDescriptorStuffs |}.

(** [ClipBase::ClipBase(const ClipBase &v)]: the bag is copied and the loop
    over its map clears every property's plug-in read-only flag. *)
Definition ClipBase_copy (v : ClipBase) : ClipBase :=
  {| _properties := Property.setPluginReadOnly false <$> _properties v |}.

(** return a std::vector of supported comp *)
Definition getSupportedComponents (b : ClipBase) : result (list string) :=
  match Property.fetchStringProperty kOfxImageEffectPropSupportedComponents (_properties b) with
  | Some values => Ok values
  | None => Undefined AssertionFailure
  end.

(** is the given component supported *)
Definition isSupportedComponent (b : ClipBase) (comp : string) : bool :=
  negb (Property.findStringPropValueIndex
          kOfxImageEffectPropSupportedComponents comp (_properties b) =? -1).

(** ** ClipDescriptor *)

Record ClipDescriptor := {
  descriptorBase : ClipBase
}.

Definition ClipDescriptor_new (name : string) : ClipDescriptor :=
  {| descriptorBase :=
       {| _properties :=
            Property.setStringProperty kOfxPropName name 0 (_properties ClipBase_new) |} |}.

(** ** ClipInstance *)

(** extra properties for the instance, these are fetched from the host
    via a get hook and some virtuals *)
Definition clipInstanceStuffs : list Property.PropSpec := [
  row kOfxImageEffectPropPixelDepth Property.eString 1 true kOfxBitDepthNone;
  row kOfxImageEffectPropComponents Property.eString 1 true kOfxImageComponentNone;
  row kOfxImageClipPropUnmappedPixelDepth Property.eString 1 true kOfxBitDepthNone;
  row kOfxImageClipPropUnmappedComponents Property.eString 1 true kOfxImageComponentNone;
  row kOfxImageEffectPropPreMultiplication Property.eString 1 true kOfxImageOpaque;
  row kOfxImagePropPixelAspectRatio Property.eDouble 1 true "1.0";
  row kOfxImageEffectPropFrameRate Property.eDouble 1 true "25.0";
  row kOfxImageEffectPropFrameRange Property.eDouble 2 true "0";
  row kOfxImageClipPropFieldOrder Property.eString 1 true kOfxImageFieldNone;
  row kOfxImageClipPropConnected Property.eInt 1 true "0";
  row kOfxImageEffectPropUnmappedFrameRange Property.eDouble 2 true "0";
  row kOfxImageEffectPropUnmappedFrameRate Property.eDouble 1 true "25.0";
  row kOfxImageClipPropContinuousSamples Property.eInt 1 true "0"
].

(** Modelled from the spec: the accessors of [ClipInstance] that a subclass
    implements (their declarations in ofxhClip.h are missing); each is the
    value the accessor yields at the instant it is called. *)
Record Virtuals := {
  getPixelDepth : string;
  getUnmappedBitDepth : string;
  getUnmappedComponents : string;
  getPremult : string;
  getAspectRatio : double;
  getFrameRate : double;
  getFrameRange : double * double;
  getUnmappedFrameRate : double;
  getUnmappedFrameRange : double * double;
  getFieldOrder : string;
  getConnected : bool;
  getContinuousSamples : bool
}.

Record ClipInstance := {
  instanceBase : ClipBase;
  _effectInstance : option Instance;
  _isOutput : bool;
  _pixelDepth : string;
  _components : string;
  virtuals : Virtuals
}.

(** [ClipInstance::ClipInstance(effectInstance, desc)]; [isOutput] is the
    value of [desc.isOutput()] and [v] the subclass's accessors. *)
Definition ClipInstance_new (effectInstance : option Instance)
    (desc : ClipDescriptor) (isOutput : bool) (v : Virtuals) : ClipInstance :=
  let copied := ClipBase_copy (descriptorBase desc) in
  let added := Property.addProperties clipInstanceStuffs (_properties copied) in
  let hooked :=
    foldl (fun acc spec =>
             match Property.type spec with
             | Property.eDouble | Property.eString | Property.eInt =>
                 Property.setGetHook (Property.name spec) acc
             | _ => acc
             end) added clipInstanceStuffs in
  {| instanceBase := {| _properties := hooked |};
     _effectInstance := effectInstance;
     _isOutput := isOutput;
     _pixelDepth := kOfxBitDepthNone;
     _components := kOfxImageComponentNone;
     virtuals := v |}.

Definition getDimension (name : string) : Z :=
  if String.eqb name kOfxImageEffectPropUnmappedFrameRange
     || String.eqb name kOfxImageEffectPropFrameRange
  then 2 else 1.

Definition reset {A : Type} (name : string) : result A :=
  Throw kOfxStatErrMissingHostFeature.

Definition getComponents (c : ClipInstance) : string := _components c.

(** set the current set of components *)
Definition setComponents (s : string) (c : ClipInstance) : ClipInstance :=
  {| instanceBase := instanceBase c;
     _effectInstance := _effectInstance c;
     _isOutput := _isOutput c;
     _pixelDepth := _pixelDepth c;
     _components := s;
     virtuals := virtuals c |}.

Definition int_of_bool (b : bool) : Z := if b then 1 else 0.

(** [getDoublePropertyN(name, values, n)]; [values] is the caller's buffer,
    with as many elements as it really has. *)
Definition getDoublePropertyN (c : ClipInstance) (name : string)
    (values : list double) (n : Z) : result (list double) :=
  if String.eqb name kOfxImagePropPixelAspectRatio then
    if decide (n > 1) then Throw kOfxStatErrValue
    else poke values 0 (getAspectRatio (virtuals c))
  else if String.eqb name kOfxImageEffectPropFrameRate then
    if decide (n > 1) then Throw kOfxStatErrValue
    else poke values 0 (getFrameRate (virtuals c))
  else if String.eqb name kOfxImageEffectPropFrameRange then
    if decide (n > 2) then Throw kOfxStatErrValue
    else values0 <-- poke values 0 (getFrameRange (virtuals c)).1 ;;
         poke values0 1 (getFrameRange (virtuals c)).2
  else if String.eqb name kOfxImageEffectPropUnmappedFrameRate then
    if decide (n > 1) then Throw kOfxStatErrValue
    else poke values 0 (getUnmappedFrameRate (virtuals c))
  else if String.eqb name kOfxImageEffectPropUnmappedFrameRange then
    if decide (n > 2) then Throw kOfxStatErrValue
    else values0 <-- poke values 0 (getUnmappedFrameRange (virtuals c)).1 ;;
         poke values0 1 (getUnmappedFrameRange (virtuals c)).2
  else Throw kOfxStatErrValue.

Definition getDoubleProperty (c : ClipInstance) (name : string) (n : Z)
    : result double :=
  if String.eqb name kOfxImagePropPixelAspectRatio then
    if decide (n <> 0) then Throw kOfxStatErrValue
    else Ok (getAspectRatio (virtuals c))
  else if String.eqb name kOfxImageEffectPropFrameRate then
    if decide (n <> 0) then Throw kOfxStatErrValue
    else Ok (getFrameRate (virtuals c))
  else if String.eqb name kOfxImageEffectPropFrameRange then
    if decide (n > 1) then Throw kOfxStatErrValue
    else
      let range := [(getFrameRange (virtuals c)).1; (getFrameRange (virtuals c)).2] in
      peek range n
  else if String.eqb name kOfxImageEffectPropUnmappedFrameRate then
    if decide (n > 0) then Throw kOfxStatErrValue
    else Ok (getUnmappedFrameRate (virtuals c))
  else if String.eqb name kOfxImageEffectPropUnmappedFrameRange then
    if decide (n > 1) then Throw kOfxStatErrValue
    else
      let range := [(getUnmappedFrameRange (virtuals c)).1;
                    (getUnmappedFrameRange (virtuals c)).2] in
      peek range n
  else Throw kOfxStatErrValue.

Definition getIntProperty (c : ClipInstance) (name : string) (n : Z)
    : result Z :=
  if decide (n <> 0) then Throw kOfxStatErrValue
  else if String.eqb name kOfxImageClipPropConnected then
    Ok (int_of_bool (getConnected (virtuals c)))
  else if String.eqb name kOfxImageClipPropContinuousSamples then
    Ok (int_of_bool (getContinuousSamples (virtuals c)))
  else Throw kOfxStatErrValue.

Definition getIntPropertyN (c : ClipInstance) (name : string)
    (values : list Z) (n : Z) : result (list Z) :=
  if decide (n <> 0) then Throw kOfxStatErrValue
  else v <-- getIntProperty c name 0 ;; poke values 0 v.

Definition getStringProperty (c : ClipInstance) (name : string) (n : Z)
    : result string :=
  if decide (n <> 0) then Throw kOfxStatErrValue
  else if String.eqb name kOfxImageEffectPropPixelDepth then
    Ok (getPixelDepth (virtuals c))
  else if String.eqb name kOfxImageEffectPropComponents then
    Ok (getComponents c)
  else if String.eqb name kOfxImageClipPropUnmappedComponents then
    Ok (getUnmappedComponents (virtuals c))
  else if String.eqb name kOfxImageClipPropUnmappedPixelDepth then
    Ok (getUnmappedBitDepth (virtuals c))
  else if String.eqb name kOfxImageEffectPropPreMultiplication then
    Ok (getPremult (virtuals c))
  else if String.eqb name kOfxImageClipPropFieldOrder then
    Ok (getFieldOrder (virtuals c))
  else Throw kOfxStatErrValue.

(** fetch multiple values in a multi-dimension property; an element of the
    buffer is the [const char*] that [c_str()] gives, the characters of the
    string before its first NUL. *)
Definition getStringPropertyN (c : ClipInstance) (name : string)
    (values : list string) (count : Z) : result (list string) :=
  if decide (count = 0) then Ok values
  else if decide (count <> 1) then Throw kOfxStatErrValue
  else if String.eqb name kOfxImageEffectPropPixelDepth then
    poke values 0 (c_str (getPixelDepth (virtuals c)))
  else if String.eqb name kOfxImageEffectPropComponents then
    poke values 0 (c_str (getComponents c))
  else if String.eqb name kOfxImageClipPropUnmappedComponents then
    poke values 0 (c_str (getUnmappedComponents (virtuals c)))
  else if String.eqb name kOfxImageClipPropUnmappedPixelDepth then
    poke values 0 (c_str (getUnmappedBitDepth (virtuals c)))
  else if String.eqb name kOfxImageEffectPropPreMultiplication then
    poke values 0 (c_str (getPremult (virtuals c)))
  else if String.eqb name kOfxImageClipPropFieldOrder then
    poke values 0 (c_str (getFieldOrder (virtuals c)))
  else Throw kOfxStatErrValue.

(** notify override properties *)
Definition notify (name : string) (isSingle : bool) (indexOrN : Z)
    (c : ClipInstance) : ClipInstance := c.

(** The clip instance as the get hook of its own bag. *)
Definition hookOfInstance (c : ClipInstance) : Property.GetHook :=
  {| Property.hookStringProperty := getStringProperty c;
     Property.hookIntProperty := getIntProperty c;
     Property.hookDoubleProperty := getDoubleProperty c |}.

(** ** The members of ClipBase, on a descriptor or an instance *)

Inductive Clip :=
| Descriptor (d : ClipDescriptor)
| Live (i : ClipInstance).

Definition getProps (c : Clip) : gmap string Property.Property :=
  match c with
  | Descriptor d => _properties (descriptorBase d)
  | Live i => _properties (instanceBase i)
  end.

(** The hook object the properties of the clip's bag may point at. *)
Definition hookOf (c : Clip) : option Property.GetHook :=
  match c with
  | Descriptor _ => None
  | Live i => Some (hookOfInstance i)
  end.

(** Modelled from the spec: [ClipBase::getName] (declared in ofxhClip.h,
    which is missing): the name set at construction of a descriptor or
    copied at cloning, that is, the bag's name property. *)
Definition getName (c : Clip) : result string :=
  Property.getStringProperty (hookOf c) (getProps c) kOfxPropName 0.

(** name of the clip *)
Definition getLabel (c : Clip) : result string :=
  s <-- Property.getStringProperty (hookOf c) (getProps c) kOfxPropLabel 0 ;;
  if String.eqb s EmptyString then getName c else Ok s.

Definition getShortLabel (c : Clip) : result string :=
  s <-- Property.getStringProperty (hookOf c) (getProps c) kOfxPropShortLabel 0 ;;
  if String.eqb s EmptyString then getLabel c else Ok s.

Definition getLongLabel (c : Clip) : result string :=
  s <-- Property.getStringProperty (hookOf c) (getProps c) kOfxPropLongLabel 0 ;;
  if String.eqb s EmptyString then getLabel c else Ok s.

(** ** instanceChangedAction *)

Module OfxCore.
Record OfxPointD := { x : double; y : double }.
Record OfxRectI := { x1 : Z; y1 : Z; x2 : Z; y2 : Z }.
End OfxCore.
Abbreviation OfxPointD := OfxCore.OfxPointD.
Abbreviation OfxRectI := OfxCore.OfxRectI.

(** One invocation of the effect's [mainEntry], as the effect sees it. *)
Record MainEntryCall := {
  callAction : string;
  callHandle : pointer;
  callInArgs : option (gmap string Property.Property);
  callOutArgs : option (gmap string Property.Property)
}.

(** The bag [inArgs] of [instanceChangedAction]; [name] and [why] stand for
    [getName().c_str()] and [why.c_str()]. *)
Definition instanceChangedArgs (name why : string) (time : double)
    (renderScale : OfxPointD) : gmap string Property.Property :=
  let stuff := [
    row kOfxPropType Property.eString 1 true kOfxTypeClip;
    row kOfxPropName Property.eString 1 true name;
    row kOfxPropChangeReason Property.eString 1 true why;
    row kOfxPropTime Property.eDouble 1 true "0";
    row kOfxImageEffectPropRenderScale Property.eDouble 2 true "0"
  ] in
  let inArgs := Property.fromSpec stuff in
  (* add the second dimension of the render scale *)
  let inArgs := Property.setDoubleProperty kOfxPropTime time 0 inArgs in
  Property.setDoublePropertyN kOfxImageEffectPropRenderScale
    [OfxCore.x renderScale; OfxCore.y renderScale] 2 inArgs.

(** The result is the returned status and the calls made to the effect. *)
Definition instanceChangedAction (c : ClipInstance) (why : string)
    (time : double) (renderScale : OfxPointD)
    : result (OfxStatus * list MainEntryCall) :=
  name <-- getName (Live c) ;;
  let inArgs := instanceChangedArgs name why time renderScale in
  match _effectInstance c with
  | Some e =>
      let st := mainEntry e kOfxActionInstanceChanged (getHandle e) (Some inArgs) None in
      Ok (st, [ {| callAction := kOfxActionInstanceChanged;
                   callHandle := getHandle e;
                   callInArgs := Some inArgs;
                   callOutArgs := None |} ])
  | None => Ok (kOfxStatFailed, [])
  end.

(** ** findSupportedComp *)

(** given the colour component, find the nearest set of supported colour
    components *)
Definition findSupportedComp (c : ClipInstance) (s : string) : result string :=
  let none := kOfxImageComponentNone in
  let rgba := kOfxImageComponentRGBA in
  let rgb := kOfxImageComponentRGB in
  let alpha := kOfxImageComponentAlpha in
  let this := instanceBase c in
  (* wierd, must be some custom bit , if only one, choose that *)
  let last :=
    supportedComps <-- getSupportedComponents this ;;
    if decide (length supportedComps = 1%nat) then peek supportedComps 0
    else Ok none in
  (* is it there *)
  if isSupportedComponent this s then Ok s
  else
    match _effectInstance c with
    | None => Undefined NullEffectInstance
    | Some e =>
        if negb (isChromaticComponent e s) then Ok s
        else if String.eqb s rgba then
          if isSupportedComponent this rgb then Ok rgb
          else if isSupportedComponent this alpha then Ok alpha
          else last
        else if String.eqb s alpha then
          if isSupportedComponent this rgba then Ok rgba
          else if isSupportedComponent this rgb then Ok rgb
          else last
        else last
    end.

(** ** Images *)

Definition imageBaseStuffs : list Property.PropSpec := [
  row kOfxPropType Property.eString 1 false kOfxTypeImage;
  row kOfxImageEffectPropPixelDepth Property.eString 1 true kOfxBitDepthNone;
  row kOfxImageEffectPropComponents Property.eString 1 true kOfxImageComponentNone;
  row kOfxImageEffectPropPreMultiplication Property.eString 1 true kOfxImageOpaque;
  row kOfxImageEffectPropRenderScale Property.eDouble 2 true "1.0";
  row kOfxImagePropPixelAspectRatio Property.eDouble 1 true "1.0";
  row kOfxImagePropBounds Property.eInt 4 true "0";
  row kOfxImagePropRegionOfDefinition Property.eInt 4 true "0";
  row kOfxImagePropRowBytes Property.eInt 1 true "0";
  row kOfxImagePropField Property.eString 1 true EmptyString;
  row kOfxImagePropUniqueIdentifier Property.eString 1 true EmptyString
].

(** An [ImageBase] is a [Property::Set] with a reference count. *)
Record ImageBase := {
  imageProps : gmap string Property.Property;
  _referenceCount : Z
}.

Definition ImageBase_new : ImageBase :=
  {| imageProps := Property.fromSpec imageBaseStuffs; _referenceCount := 1 |}.

(** A call of one of the image's own typed setters. *)
Inductive Write :=
| SetString (name : string) (value : string) (index : Z)
| SetDouble (name : string) (value : double) (index : Z)
| SetInt (name : string) (value : Z) (index : Z)
| SetPointer (name : string) (value : pointer) (index : Z).

(** An image under construction: the object, and the setter calls made on
    it so far, oldest first. *)
Record Building := {
  built : ImageBase;
  calls : list Write
}.

Definition call (w : Write) (b : Building) : Building :=
  {| built :=
       {| imageProps :=
            match w with
            | SetString name value index =>
                Property.setStringProperty name value index (imageProps (built b))
            | SetDouble name value index =>
                Property.setDoubleProperty name value index (imageProps (built b))
            | SetInt name value index =>
                Property.setIntProperty name value index (imageProps (built b))
            | SetPointer name value index =>
                Property.setPointerProperty name value index (imageProps (built b))
            end;
          _referenceCount := _referenceCount (built b) |};
     calls := calls b ++ [w] |}.

(** The member initialisers [Property::Set(imageBaseStuffs)] and
    [_referenceCount(1)] of the three constructors. *)
Definition initialised : Building :=
  {| built := ImageBase_new; calls := [] |}.

(** called during ctor to get bits from the clip props into ours *)
Definition getClipBits (instance : ClipInstance) (this : Building)
    : result Building :=
  let clipProperties := getProps (Live instance) in
  let hook := hookOf (Live instance) in
  (* get and set the clip instance pixel depth *)
  depth <-- Property.getStringProperty hook clipProperties kOfxImageEffectPropPixelDepth 0 ;;
  let this := call (SetString kOfxImageEffectPropPixelDepth depth 0) this in
  (* get and set the clip instance components *)
  comps <-- Property.getStringProperty hook clipProperties kOfxImageEffectPropComponents 0 ;;
  let this := call (SetString kOfxImageEffectPropComponents comps 0) this in
  (* get and set the clip instance premultiplication *)
  premult <-- Property.getStringProperty hook clipProperties kOfxImageEffectPropPreMultiplication 0 ;;
  let this := call (SetString kOfxImageEffectPropPreMultiplication premult 0) this in
  (* get and set the clip instance pixel aspect ratio *)
  aspect <-- Property.getDoubleProperty hook clipProperties kOfxImagePropPixelAspectRatio 0 ;;
  Ok (call (SetDouble kOfxImagePropPixelAspectRatio aspect 0) this).

(** make an image from a clip instance *)
Definition ImageBase_ofClip (instance : ClipInstance) : result Building :=
  getClipBits instance initialised.

(** construction based on clip instance *)
Definition ImageBase_ofClipGeometry (instance : ClipInstance)
    (renderScaleX renderScaleY : double) (bounds rod : OfxRectI)
    (rowBytes : Z) (field uniqueIdentifier : string) : result Building :=
  this <-- getClipBits instance initialised ;;
  (* set other data *)
  let this := call (SetDouble kOfxImageEffectPropRenderScale renderScaleX 0) this in
  let this := call (SetDouble kOfxImageEffectPropRenderScale renderScaleY 1) this in
  let this := call (SetInt kOfxImagePropBounds (OfxCore.x1 bounds) 0) this in
  let this := call (SetInt kOfxImagePropBounds (OfxCore.y1 bounds) 1) this in
  let this := call (SetInt kOfxImagePropBounds (OfxCore.x2 bounds) 2) this in
  let this := call (SetInt kOfxImagePropBounds (OfxCore.y2 bounds) 3) this in
  let this := call (SetInt kOfxImagePropRegionOfDefinition (OfxCore.x1 rod) 0) this in
  let this := call (SetInt kOfxImagePropRegionOfDefinition (OfxCore.y1 rod) 1) this in
  let this := call (SetInt kOfxImagePropRegionOfDefinition (OfxCore.x2 rod) 2) this in
  let this := call (SetInt kOfxImagePropRegionOfDefinition (OfxCore.y2 rod) 3) this in
  let this := call (SetInt kOfxImagePropRowBytes rowBytes 0) this in
  let this := call (SetString kOfxImagePropField field 0) this in
  let this := call (SetString kOfxImageClipPropFieldOrder field 0) this in
  Ok (call (SetString kOfxImagePropUniqueIdentifier uniqueIdentifier 0) this).

Definition imageStuffs : list Property.PropSpec := [
  rowNull kOfxImagePropData Property.ePointer 1 true
].

(** [addProperties(imageStuffs)] on the image under construction. *)
Definition addImageStuffs (this : Building) : Building :=
  {| built :=
       {| imageProps := Property.addProperties imageStuffs (imageProps (built this));
          _referenceCount := _referenceCount (built this) |};
     calls := calls this |}.

(** [Image::Image(ClipInstance&)] *)
Definition Image_ofClip (instance : ClipInstance) : result Building :=
  this <-- ImageBase_ofClip instance ;;
  Ok (addImageStuffs this).

(** [Image::Image(ClipInstance&, renderScaleX, ..., uniqueIdentifier)] *)
Definition Image_ofClipGeometry (instance : ClipInstance)
    (renderScaleX renderScaleY : double) (data : pointer)
    (bounds rod : OfxRectI) (rowBytes : Z) (field uniqueIdentifier : string)
    : result Building :=
  this <-- ImageBase_ofClipGeometry instance renderScaleX renderScaleY bounds
             rod rowBytes field uniqueIdentifier ;;
  let this := addImageStuffs this in
  (* set other data *)
  Ok (call (SetPointer kOfxImagePropData data 0) this).

(** The value vector the image's bag holds for a key. *)
Definition stored (img : ImageBase) (name : string) : option Property.Values :=
  Property._value <$> (imageProps img !! name).

(** *** Reference counting *)

(** The storage of one image: the object while it lives, and how many times
    its destructor has run. *)
Record Cell := {
  object : option ImageBase;
  destructorRuns : nat
}.

Definition allocate (img : ImageBase) : Cell :=
  {| object := Some img; destructorRuns := 0 |}.

Definition withCount (n : Z) (img : ImageBase) : ImageBase :=
  {| imageProps := imageProps img; _referenceCount := n |}.

(** [_referenceCount] is an [int]: 32 bits, two's complement. *)
Definition INT_MAX : Z := 2147483647.
Definition INT_MIN : Z := -2147483648.

(** The [int] an arithmetic result is stored as: it wraps around modulo
    2^32 into [INT_MIN .. INT_MAX], as the machine's addition does (the
    language leaves signed overflow undefined). *)
Definition wrapInt (z : Z) : Z := (z - INT_MIN) mod 4294967296 + INT_MIN.

(** Modelled from the spec: [ImageBase::addReference] (declared in
    ofxhClip.h, which is missing): an increment of the single integer
    counter. *)
Definition addReference (cell : Cell) : result Cell :=
  match object cell with
  | None => Undefined UseAfterFree
  | Some img =>
      Ok {| object := Some (withCount (wrapInt (_referenceCount img + 1)) img);
            destructorRuns := destructorRuns cell |}
  end.

(** release the reference *)
Definition releaseReference (cell : Cell) : result Cell :=
  match object cell with
  | None => Undefined UseAfterFree
  | Some img =>
      let img' := withCount (wrapInt (_referenceCount img - 1)) img in
      if decide (_referenceCount img' <= 0) then
        (* delete this *)
        Ok {| object := None; destructorRuns := S (destructorRuns cell) |}
      else Ok {| object := Some img'; destructorRuns := destructorRuns cell |}
  end.

Inductive RefOp := AddRef | Release.

Definition refStep (r : result Cell) (op : RefOp) : result Cell :=
  cell <-- r ;;
  match op with
  | AddRef => addReference cell
  | Release => releaseReference cell
  end.

(** The calls of [ops], in order, on a cell. *)
Definition runRefOps (ops : list RefOp) (cell : Cell) : result Cell :=
  foldl refStep (Ok cell) ops.

(** ** Sample objects used by the worked examples *)

Definition sampleVirtuals : Virtuals :=
  {| getPixelDepth := "OfxBitDepthFloat";
     getUnmappedBitDepth := "OfxBitDepthByte";
     getUnmappedComponents := kOfxImageComponentRGB;
     getPremult := "OfxImagePreMultiplied";
     getAspectRatio := double_of_Z 2;
     getFrameRate := double_of_Z 24;
     getFrameRange := (double_of_Z 1, double_of_Z 100);
     getUnmappedFrameRate := double_of_Z 30;
     getUnmappedFrameRange := (double_of_Z 0, double_of_Z 50);
     getFieldOrder := kOfxImageFieldNone;
     getConnected := true;
     getContinuousSamples := false |}.

(** An effect whose chromatic components are RGBA, RGB and Alpha and whose
    [mainEntry] answers with status 14. *)
Definition sampleEffect : Instance :=
  {| getHandle := 4096;
     mainEntry := fun _ _ _ _ => 14;
     isChromaticComponent := fun s =>
       String.eqb s kOfxImageComponentRGBA
       || String.eqb s kOfxImageComponentRGB
       || String.eqb s kOfxImageComponentAlpha |}.

(** An effect for which no component is chromatic. *)
Definition achromaticEffect : Instance :=
  {| getHandle := 8192;
     mainEntry := fun _ _ _ _ => 0;
     isChromaticComponent := fun _ => false |}.

(** A descriptor named [name] whose supported components are [comps], set
    one index after the other as a plug-in does. *)
Definition sampleDescriptor (name : string) (comps : list string) : ClipDescriptor :=
  {| descriptorBase :=
       {| _properties :=
            foldl (fun acc iv =>
                     Property.setStringProperty kOfxImageEffectPropSupportedComponents
                       iv.2 (Z.of_nat iv.1) acc)
              (_properties (descriptorBase (ClipDescriptor_new name)))
              (imap (fun i v => (i, v)) comps) |} |}.

Definition sampleClip (effect : option Instance) (comps : list string) : ClipInstance :=
  ClipInstance_new effect (sampleDescriptor "Source" comps) false sampleVirtuals.

(** An effect that also counts the custom component [MyChroma] as
    chromatic. *)
Definition wideEffect : Instance :=
  {| getHandle := 12288;
     mainEntry := fun _ _ _ _ => 0;
     isChromaticComponent := fun s =>
       String.eqb s "MyChroma" || isChromaticComponent sampleEffect s |}.

(** A change reason with a NUL character inside: [a], NUL, [b]. *)
Definition reasonWithNul : string :=
  String "a"%char (String Ascii.zero (String "b"%char EmptyString)).

(** The four values an image takes over from its clip, as the image's bag
    holds them. *)
Definition snapshots (img : ImageBase) (depth comps premult : string)
    (aspect : double) : Prop :=
  stored img kOfxImageEffectPropPixelDepth = Some (Property.StringValues [depth])
  /\ stored img kOfxImageEffectPropComponents = Some (Property.StringValues [comps])
  /\ stored img kOfxImageEffectPropPreMultiplication
     = Some (Property.StringValues [premult])
  /\ stored img kOfxImagePropPixelAspectRatio = Some (Property.DoubleValues [aspect]).

(** What the clip's bag yields for the four keys [getClipBits] reads. *)
Definition clipYields (instance : ClipInstance) (depth comps premult : string)
    (aspect : double) : Prop :=
  let bag := getProps (Live instance) in
  let hook := hookOf (Live instance) in
  Property.getStringProperty hook bag kOfxImageEffectPropPixelDepth 0 = Ok depth
  /\ Property.getStringProperty hook bag kOfxImageEffectPropComponents 0 = Ok comps
  /\ Property.getStringProperty hook bag kOfxImageEffectPropPreMultiplication 0
     = Ok premult
  /\ Property.getDoubleProperty hook bag kOfxImagePropPixelAspectRatio 0 = Ok aspect.

(** ** The keys the get hook recognises *)

Definition stringKeys : list string := [
  kOfxImageEffectPropPixelDepth;
  kOfxImageEffectPropComponents;
  kOfxImageClipPropUnmappedComponents;
  kOfxImageClipPropUnmappedPixelDepth;
  kOfxImageEffectPropPreMultiplication;
  kOfxImageClipPropFieldOrder
].

Definition intKeys : list string := [
  kOfxImageClipPropConnected;
  kOfxImageClipPropContinuousSamples
].

(** The single-valued double keys, and the two range keys. *)
Definition doubleKeys : list string := [
  kOfxImagePropPixelAspectRatio;
  kOfxImageEffectPropFrameRate;
  kOfxImageEffectPropUnmappedFrameRate
].

Definition rangeKeys : list string := [
  kOfxImageEffectPropFrameRange;
  kOfxImageEffectPropUnmappedFrameRange
].

(** The last step of the mapping: the only entry of a one-entry list, else
    the sentinel. *)
Definition onlyEntryOrNone (S : list string) : string :=
  match S with
  | [x] => x
  | _ => kOfxImageComponentNone
  end.

(** Closed, decidable facts about the sample objects. *)
Ltac by_computation := apply (bool_decide_unpack _); vm_compute; exact I.

(** One case for each key of a list of keys. *)
Ltac key_cases H :=
  repeat (apply elem_of_cons in H as [->|H]); [..|apply elem_of_nil in H; destruct H].

(** ** The remaining members of ClipBase *)

(** does the clip do random temporal access *)
Definition temporalAccess (c : Clip) : result bool :=
  v <-- Property.getIntProperty (hookOf c) (getProps c)
          kOfxImageEffectPropTemporalClipAccess 0 ;;
  Ok (negb (v =? 0)).

(** is the clip optional *)
Definition isOptional (c : Clip) : result bool :=
  v <-- Property.getIntProperty (hookOf c) (getProps c) kOfxImageClipPropOptional 0 ;;
  Ok (negb (v =? 0)).

(** is the clip a nominal 'mask' clip *)
Definition isMask (c : Clip) : result bool :=
  v <-- Property.getIntProperty (hookOf c) (getProps c) kOfxImageClipPropIsMask 0 ;;
  Ok (negb (v =? 0)).

(** how does this clip like fielded images to be presented to it *)
Definition getFieldExtraction (c : Clip) : result string :=
  Property.getStringProperty (hookOf c) (getProps c) kOfxImageClipPropFieldExtraction 0.

Definition supportsTiles (c : Clip) : result bool :=
  v <-- Property.getIntProperty (hookOf c) (getProps c)
          kOfxImageEffectPropSupportsTiles 0 ;;
  Ok (negb (v =? 0)).

(** The base part of a clip, on which [getSupportedComponents] and
    [isSupportedComponent] work. *)
Definition baseOf (c : Clip) : ClipBase :=
  match c with
  | Descriptor d => descriptorBase d
  | Live i => instanceBase i
  end.

(** The test of the constructor's loop: the types a get hook is set for. *)
Definition hookable (spec : Property.PropSpec) : bool :=
  match Property.type spec with
  | Property.eDouble | Property.eString | Property.eInt => true
  | _ => false
  end.

(** Whether the constructor's loop over [specs] sets a get hook for [k]. *)
Definition hookedBy (specs : list Property.PropSpec) (k : string) : bool :=
  existsb (fun spec => hookable spec && String.eqb (Property.name spec) k) specs.

(** The property [createProperty] makes of a row. *)
Definition declared (spec : Property.PropSpec) (v : Property.Values)
    : Property.Property :=
  {| Property._dimension := Property.dimension spec;
     Property._pluginReadOnly := Property.readonly spec;
     Property._getHook := false;
     Property._value := v |}.

(** ** Reading the geometry of an image back *)

(** Modelled from the spec: [Property::Set::getIntPropertyN]
    (ofxhPropertySuite.cpp is missing), for a key without a get hook: the
    first [count] stored integers are copied to the front of the buffer; more
    than are stored is a bad index. *)
Definition Set_getIntPropertyN (s : gmap string Property.Property)
    (name : string) (values : list Z) (count : Z) : result (list Z) :=
  match s !! name with
  | Some p =>
      match Property._value p with
      | Property.IntValues l =>
          let n := Z.to_nat count in
          if decide (length l < n)%nat then Throw kOfxStatErrBadIndex
          else if decide (length values < n)%nat then Undefined OutOfBounds
          else Ok (take n l ++ drop n values)
      | _ => Throw kOfxStatErrUnknown
      end
  | None => Throw kOfxStatErrUnknown
  end.

(** The four [int]s of an [OfxRectI], in the order they lie in memory. *)
Definition rectOfInts (l : list Z) : OfxRectI :=
  {| OfxCore.x1 := nth 0 l 0; OfxCore.y1 := nth 1 l 0;
     OfxCore.x2 := nth 2 l 0; OfxCore.y2 := nth 3 l 0 |}.

Definition getBounds (img : ImageBase) : result OfxRectI :=
  let bounds := [0; 0; 0; 0] in
  bounds <-- Set_getIntPropertyN (imageProps img) kOfxImagePropBounds bounds 4 ;;
  Ok (rectOfInts bounds).

Definition getROD (img : ImageBase) : result OfxRectI :=
  let rod := [0; 0; 0; 0] in
  rod <-- Set_getIntPropertyN (imageProps img) kOfxImagePropRegionOfDefinition rod 4 ;;
  Ok (rectOfInts rod).

(** ** Textures (with [OFX_SUPPORTS_OPENGLRENDER])

    The two keys are constants of ofxOpenGLRender.h. *)
Definition kOfxImageEffectPropOpenGLTextureIndex : string :=
  "OfxImageEffectPropOpenGLTextureIndex".
Definition kOfxImageEffectPropOpenGLTextureTarget : string :=
  "OfxImageEffectPropOpenGLTextureTarget".

Definition textureStuffs : list Property.PropSpec := [
  row kOfxImageEffectPropOpenGLTextureIndex Property.eInt 1 true "-1";
  row kOfxImageEffectPropOpenGLTextureTarget Property.eInt 1 true "-1"
].

(** [addProperties(textureStuffs)] on the texture under construction. *)
Definition addTextureStuffs (this : Building) : Building :=
  {| built :=
       {| imageProps := Property.addProperties textureStuffs (imageProps (built this));
          _referenceCount := _referenceCount (built this) |};
     calls := calls this |}.

(** [Image::Image()] and [Texture::Texture()] *)
Definition Image_new : Building := addImageStuffs initialised.
Definition Texture_new : Building := addTextureStuffs initialised.

(** [Texture::Texture(ClipInstance&)] *)
Definition Texture_ofClip (instance : ClipInstance) : result Building :=
  this <-- ImageBase_ofClip instance ;;
  Ok (addTextureStuffs this).

(** [Texture::Texture(ClipInstance&, renderScaleX, ..., uniqueIdentifier)] *)
Definition Texture_ofClipGeometry (instance : ClipInstance)
    (renderScaleX renderScaleY : double) (index target : Z)
    (bounds rod : OfxRectI) (rowBytes : Z) (field uniqueIdentifier : string)
    : result Building :=
  this <-- ImageBase_ofClipGeometry instance renderScaleX renderScaleY bounds
             rod rowBytes field uniqueIdentifier ;;
  let this := addTextureStuffs this in
  (* set other data *)
  let this := call (SetInt kOfxImageEffectPropOpenGLTextureIndex index 0) this in
  Ok (call (SetInt kOfxImageEffectPropOpenGLTextureTarget target 0) this).

(** ** Counting references *)

(** References added less references released by a sequence of calls. *)
Fixpoint netReferences (ops : list RefOp) : Z :=
  match ops with
  | [] => 0
  | AddRef :: rest => 1 + netReferences rest
  | Release :: rest => -1 + netReferences rest
  end.

(** * Properties *)

(** ** The result monad and the buffers *)

Lemma poke_in_range {A : Type} (values : list A) (i : nat) (v : A) :
  (i < length values)%nat -> poke values i v = Ok (<[i:=v]> values).
Proof. intros H. unfold poke. case_decide; [reflexivity | lia]. Qed.

Lemma poke_out_of_range {A : Type} (values : list A) (i : nat) (v : A) :
  (length values <= i)%nat -> poke values i v = Undefined OutOfBounds.
Proof. intros H. unfold poke. case_decide; [lia | reflexivity]. Qed.

Lemma peek_negative {A : Type} (a : list A) (n : Z) :
  n < 0 -> peek a n = Undefined OutOfBounds.
Proof. intros H. unfold peek. case_decide; [reflexivity | lia]. Qed.

(** ** The supported-components list *)

Lemma indexOf_absent (value : string) (l : list string) (i : Z) :
  0 <= i -> (Property.indexOf value l i = -1 <-> value ∉ l).
Proof.
  revert i. induction l as [|x r IH]; intros i Hi; simpl.
  - split; [intros _; apply not_elem_of_nil | reflexivity].
  - destruct (String.eqb_spec x value) as [->|Hne].
    + split; [lia | intros H; exfalso; apply H; left].
    + rewrite (IH (i + 1)) by lia. rewrite not_elem_of_cons.
      split; [intros H; split; [congruence | exact H] | intros [_ H]; exact H].
Qed.

Lemma isSupportedComponent_elem (b : ClipBase) (S : list string) (s : string) :
  getSupportedComponents b = Ok S ->
  (isSupportedComponent b s = true <-> s ∈ S).
Proof.
  unfold getSupportedComponents, isSupportedComponent,
    Property.findStringPropValueIndex.
  destruct (Property.fetchStringProperty _ _) as [l|]; [|discriminate].
  intros [= ->].
  pose proof (indexOf_absent s S 0 ltac:(lia)) as Habs.
  destruct (Z.eqb_spec (Property.indexOf s S 0) (-1)) as [E|E]; simpl.
  - split; [discriminate | intros Hin; apply Habs in E; contradiction].
  - split; [intros _ | reflexivity].
    destruct (decide (s ∈ S)) as [Hin|Hout]; [exact Hin|].
    apply Habs in Hout. contradiction.
Qed.

Lemma isSupportedComponent_not_elem (b : ClipBase) (S : list string) (s : string) :
  getSupportedComponents b = Ok S ->
  (isSupportedComponent b s = false <-> s ∉ S).
Proof.
  intros HS. rewrite <- (isSupportedComponent_elem b S s HS).
  destruct (isSupportedComponent b s); split; congruence.
Qed.

(** Without the supported-components property nothing is supported. *)
Lemma isSupportedComponent_no_list (b : ClipBase) (s : string) :
  getSupportedComponents b = Undefined AssertionFailure ->
  isSupportedComponent b s = false.
Proof.
  unfold getSupportedComponents, isSupportedComponent,
    Property.findStringPropValueIndex.
  destruct (Property.fetchStringProperty _ _); [discriminate | reflexivity].
Qed.

Lemma getSupportedComponents_cases (b : ClipBase) :
  (exists S, getSupportedComponents b = Ok S)
  \/ getSupportedComponents b = Undefined AssertionFailure.
Proof.
  unfold getSupportedComponents.
  destruct (Property.fetchStringProperty _ _); eauto.
Qed.

(** ** findSupportedComp *)


Lemma peek_only_entry (S : list string) :
  length S = 1%nat -> peek S 0 = Ok (onlyEntryOrNone S).
Proof. destruct S as [|x [|y r]]; simpl; intros H; try discriminate. reflexivity. Qed.

(** What the mapping returns once the request is neither supported nor
    substituted. *)
Lemma last_step (b : ClipBase) (S : list string) :
  getSupportedComponents b = Ok S ->
  (supportedComps <-- getSupportedComponents b ;;
   if decide (length supportedComps = 1%nat) then peek supportedComps 0
   else Ok kOfxImageComponentNone) = Ok (onlyEntryOrNone S).
Proof.
  intros ->. simpl. case_decide as Hlen.
  - apply peek_only_entry, Hlen.
  - destruct S as [|x [|y r]]; simpl in *; congruence.
Qed.

Lemma onlyEntryOrNone_cases (S : list string) :
  onlyEntryOrNone S ∈ S \/ onlyEntryOrNone S = kOfxImageComponentNone.
Proof.
  destruct S as [|x [|y r]]; simpl; auto. left. apply list_elem_of_singleton. reflexivity.
Qed.

(** A supported request is returned as it is, whatever the effect. *)
Lemma findSupportedComp_supported (c : ClipInstance) (s : string) :
  isSupportedComponent (instanceBase c) s = true -> findSupportedComp c s = Ok s.
Proof. intros H. unfold findSupportedComp. rewrite H. reflexivity. Qed.

(** A request that is not chromatic is returned as it is. *)
Lemma findSupportedComp_not_chromatic (c : ClipInstance) (e : Instance) (s : string) :
  _effectInstance c = Some e ->
  isSupportedComponent (instanceBase c) s = false ->
  isChromaticComponent e s = false ->
  findSupportedComp c s = Ok s.
Proof. intros He Hs Hc. unfold findSupportedComp. rewrite Hs, He, Hc. reflexivity. Qed.

(** Without an effect instance an unsupported request dereferences NULL. *)
Lemma findSupportedComp_no_effect (c : ClipInstance) (s : string) :
  _effectInstance c = None ->
  isSupportedComponent (instanceBase c) s = false ->
  findSupportedComp c s = Undefined NullEffectInstance.
Proof. intros He Hs. unfold findSupportedComp. rewrite Hs, He. reflexivity. Qed.

(** The mapping of a chromatic, unsupported request, case by case. *)
Lemma findSupportedComp_chromatic (c : ClipInstance) (e : Instance)
    (S : list string) (s : string) :
  _effectInstance c = Some e ->
  getSupportedComponents (instanceBase c) = Ok S ->
  s ∉ S ->
  isChromaticComponent e s = true ->
  findSupportedComp c s =
    Ok (if decide (s = kOfxImageComponentRGBA) then
          if decide (kOfxImageComponentRGB ∈ S) then kOfxImageComponentRGB
          else if decide (kOfxImageComponentAlpha ∈ S) then kOfxImageComponentAlpha
          else onlyEntryOrNone S
        else if decide (s = kOfxImageComponentAlpha) then
          if decide (kOfxImageComponentRGBA ∈ S) then kOfxImageComponentRGBA
          else if decide (kOfxImageComponentRGB ∈ S) then kOfxImageComponentRGB
          else onlyEntryOrNone S
        else onlyEntryOrNone S).
Proof.
  intros He HS Hout Hc. unfold findSupportedComp.
  rewrite (proj2 (isSupportedComponent_not_elem _ S s HS) Hout), He, Hc. simpl.
  rewrite (last_step _ S HS).
  assert (Hsup : forall x, isSupportedComponent (instanceBase c) x
                           = bool_decide (x ∈ S)).
  { intros x. case_bool_decide as Hx.
    - apply (isSupportedComponent_elem _ S x HS), Hx.
    - apply (isSupportedComponent_not_elem _ S x HS), Hx. }
  rewrite !Hsup.
  destruct (String.eqb_spec s kOfxImageComponentRGBA) as [->|Hrgba].
  - rewrite decide_True by reflexivity.
    repeat case_bool_decide; repeat case_decide; try reflexivity; contradiction.
  - rewrite (decide_False (P := s = kOfxImageComponentRGBA)) by exact Hrgba.
    destruct (String.eqb_spec s kOfxImageComponentAlpha) as [->|Halpha].
    + rewrite decide_True by reflexivity.
      repeat case_bool_decide; repeat case_decide; try reflexivity; contradiction.
    + rewrite (decide_False (P := s = kOfxImageComponentAlpha)) by exact Halpha.
      reflexivity.
Qed.


(** C1, as amended: a chromatic request [s] that the clip does not support,
    and that neither the RGBA rule (RGB or Alpha supported) nor the Alpha
    rule (RGBA or RGB supported) substitutes, is mapped to the only entry of
    the supported list when that list has exactly one entry, and to the
    sentinel otherwise.  So a request for RGBA is mapped to [MyXYZ] when the
    clip supports [MyXYZ] alone, and to the sentinel when it supports
    [MyXYZ] and [MyUVW]. *)
Theorem findSupportedComp_unmapped_chromatic (c : ClipInstance) (e : Instance)
    (S : list string) (s : string) :
  _effectInstance c = Some e ->
  isChromaticComponent e s = true ->
  getSupportedComponents (instanceBase c) = Ok S ->
  s ∉ S ->
  ~ (s = kOfxImageComponentRGBA
     /\ (kOfxImageComponentRGB ∈ S \/ kOfxImageComponentAlpha ∈ S)) ->
  ~ (s = kOfxImageComponentAlpha
     /\ (kOfxImageComponentRGBA ∈ S \/ kOfxImageComponentRGB ∈ S)) ->
  (forall only, S = [only] -> findSupportedComp c s = Ok only)
  /\ (length S <> 1%nat -> findSupportedComp c s = Ok kOfxImageComponentNone)
  /\ (s = kOfxImageComponentRGBA -> S = ["MyXYZ"%string] ->
      findSupportedComp c s = Ok "MyXYZ"%string)
  /\ (s = kOfxImageComponentRGBA -> S = ["MyXYZ"%string; "MyUVW"%string] ->
      findSupportedComp c s = Ok kOfxImageComponentNone).
Proof.
  intros He Hc HS Hout Hrgba Halpha.
  assert (Hres : findSupportedComp c s = Ok (onlyEntryOrNone S)).
  { rewrite (findSupportedComp_chromatic c e S s He HS Hout Hc).
    f_equal. repeat case_decide; try reflexivity; exfalso; tauto. }
  rewrite Hres. repeat split.
  - intros only ->. reflexivity.
  - intros Hlen. destruct S as [|x [|y r]]; simpl in *; congruence.
  - intros _ ->. reflexivity.
  - intros _ ->. reflexivity.
Qed.

Lemma findSupportedComp_unmapped_chromatic_witness :
  findSupportedComp (sampleClip (Some sampleEffect) ["MyXYZ"%string])
    kOfxImageComponentRGBA = Ok "MyXYZ"%string.
Proof.
  refine (proj1 (findSupportedComp_unmapped_chromatic
                   (sampleClip (Some sampleEffect) ["MyXYZ"%string]) sampleEffect
                   ["MyXYZ"%string] kOfxImageComponentRGBA
                   eq_refl eq_refl eq_refl _ _ _) "MyXYZ"%string eq_refl).
  - by_computation.
  - intros [_ H]. revert H. by_computation.
  - intros [H _]. revert H. by_computation.
Defined.

(** C1, as stated, fails: with supported list [MyXYZ] and a chromatic
    request for RGBA, none of RGBA, RGB and Alpha being supported, the
    mapping returns [MyXYZ], not the sentinel. *)
Lemma findSupportedComp_single_custom_counterexample :
  let c := sampleClip (Some sampleEffect) ["MyXYZ"%string] in
  _effectInstance c = Some sampleEffect
  /\ isChromaticComponent sampleEffect kOfxImageComponentRGBA = true
  /\ getSupportedComponents (instanceBase c) = Ok ["MyXYZ"%string]
  /\ isSupportedComponent (instanceBase c) kOfxImageComponentRGBA = false
  /\ isSupportedComponent (instanceBase c) kOfxImageComponentRGB = false
  /\ isSupportedComponent (instanceBase c) kOfxImageComponentAlpha = false
  /\ findSupportedComp c kOfxImageComponentRGBA = Ok "MyXYZ"%string
  /\ findSupportedComp c kOfxImageComponentRGBA <> Ok kOfxImageComponentNone.
Proof.
  vm_compute. repeat split; discriminate.
Qed.

(** With an effect bound, the mapping of an unsupported chromatic request
    lands in the supported list or on the sentinel. *)
Lemma findSupportedComp_chromatic_range (c : ClipInstance) (e : Instance)
    (S : list string) (s : string) :
  _effectInstance c = Some e ->
  getSupportedComponents (instanceBase c) = Ok S ->
  s ∉ S ->
  isChromaticComponent e s = true ->
  exists out, findSupportedComp c s = Ok out
              /\ (out ∈ S \/ out = kOfxImageComponentNone).
Proof.
  intros He HS Hout Hc.
  rewrite (findSupportedComp_chromatic c e S s He HS Hout Hc).
  eexists; split; [reflexivity|].
  pose proof (onlyEntryOrNone_cases S).
  repeat case_decide; auto.
Qed.

(** C4, as amended: with supported list [S], a request [r] that is in [S]
    is returned as it is; when an effect instance is bound the result is an
    element of [S], or [r], or the sentinel; and the result is determined by
    [r], [S] and the answer of the bound effect's [isChromaticComponent] on
    [r]. *)
Theorem findSupportedComp_range (c : ClipInstance) (S : list string) (r : string) :
  getSupportedComponents (instanceBase c) = Ok S ->
  (r ∈ S -> findSupportedComp c r = Ok r)
  /\ (forall e, _effectInstance c = Some e ->
        exists out, findSupportedComp c r = Ok out
                    /\ (out ∈ S \/ out = r \/ out = kOfxImageComponentNone))
  /\ (forall c' e e',
        getSupportedComponents (instanceBase c') = Ok S ->
        _effectInstance c = Some e ->
        _effectInstance c' = Some e' ->
        isChromaticComponent e' r = isChromaticComponent e r ->
        findSupportedComp c' r = findSupportedComp c r).
Proof.
  intros HS. split; [|split].
  - intros Hin. apply findSupportedComp_supported.
    apply (isSupportedComponent_elem _ S r HS), Hin.
  - intros e He. destruct (decide (r ∈ S)) as [Hin|Hout].
    + exists r. split; [|auto].
      apply findSupportedComp_supported, (isSupportedComponent_elem _ S r HS), Hin.
    + destruct (isChromaticComponent e r) eqn:Hc.
      * destruct (findSupportedComp_chromatic_range c e S r He HS Hout Hc)
          as (out & Hres & [Hin|Hnone]); exists out; auto.
      * exists r. split; [|auto].
        apply (findSupportedComp_not_chromatic c e r He); [|exact Hc].
        apply (isSupportedComponent_not_elem _ S r HS), Hout.
  - intros c' e e' HS' He He' Hsame. destruct (decide (r ∈ S)) as [Hin|Hout].
    + rewrite !findSupportedComp_supported; [reflexivity | |].
      * apply (isSupportedComponent_elem _ S r HS), Hin.
      * apply (isSupportedComponent_elem _ S r HS'), Hin.
    + destruct (isChromaticComponent e r) eqn:Hc.
      * rewrite (findSupportedComp_chromatic c e S r He HS Hout Hc).
        rewrite (findSupportedComp_chromatic c' e' S r He' HS' Hout Hsame).
        reflexivity.
      * rewrite (findSupportedComp_not_chromatic c e r He); [|
          apply (isSupportedComponent_not_elem _ S r HS), Hout | exact Hc].
        apply (findSupportedComp_not_chromatic c' e' r He'); [|exact Hsame].
        apply (isSupportedComponent_not_elem _ S r HS'), Hout.
Qed.

Lemma findSupportedComp_range_witness :
  findSupportedComp (sampleClip (Some sampleEffect) ["MyXYZ"%string; "MyUVW"%string])
    "MyUVW"%string = Ok "MyUVW"%string.
Proof.
  refine (proj1 (findSupportedComp_range
                   (sampleClip (Some sampleEffect) ["MyXYZ"%string; "MyUVW"%string])
                   ["MyXYZ"%string; "MyUVW"%string] "MyUVW"%string eq_refl) _).
  by_computation.
Defined.

(** C4, as stated, fails: three clips with the same supported list map the
    same request differently, since the answer also depends on the effect
    instance each is bound to. *)
Lemma findSupportedComp_not_function_of_request_and_list_counterexample :
  let S := ["MyXYZ"%string; "MyUVW"%string] in
  let plain := sampleClip (Some sampleEffect) S in
  let wide := sampleClip (Some wideEffect) S in
  let unbound := sampleClip None S in
  getSupportedComponents (instanceBase plain) = Ok S
  /\ getSupportedComponents (instanceBase wide) = Ok S
  /\ getSupportedComponents (instanceBase unbound) = Ok S
  /\ findSupportedComp plain "MyChroma" = Ok "MyChroma"%string
  /\ findSupportedComp wide "MyChroma" = Ok kOfxImageComponentNone
  /\ findSupportedComp unbound "MyChroma" = Undefined NullEffectInstance
  /\ findSupportedComp plain "MyChroma" <> findSupportedComp wide "MyChroma".
Proof.
  vm_compute. repeat split; discriminate.
Qed.

(** ** instanceChangedAction without an effect *)

Lemma instanceChangedAction_unbound (c : ClipInstance) (name why : string)
    (time : double) (renderScale : OfxPointD) :
  _effectInstance c = None ->
  getName (Live c) = Ok name ->
  instanceChangedAction c why time renderScale = Ok (kOfxStatFailed, []).
Proof.
  intros He Hn. unfold instanceChangedAction. rewrite Hn, He. reflexivity.
Qed.

Lemma instanceChangedAction_bound (c : ClipInstance) (e : Instance)
    (name why : string) (time : double) (renderScale : OfxPointD) :
  _effectInstance c = Some e ->
  getName (Live c) = Ok name ->
  instanceChangedAction c why time renderScale =
    Ok (mainEntry e kOfxActionInstanceChanged (getHandle e)
          (Some (instanceChangedArgs name why time renderScale)) None,
        [ {| callAction := kOfxActionInstanceChanged;
             callHandle := getHandle e;
             callInArgs := Some (instanceChangedArgs name why time renderScale);
             callOutArgs := None |} ]).
Proof.
  intros He Hn. unfold instanceChangedAction. rewrite Hn, He. reflexivity.
Qed.

(** C10: on the path where the request [s] is not supported,
    [findSupportedComp] dereferences the effect-instance back-reference
    without a test: with no effect bound the call is a NULL dereference, with
    one bound it never is, and the effect's [isChromaticComponent] decides
    whether [s] is returned as it is.  [instanceChangedAction] tests the
    back-reference instead, and returns the failed status without a call. *)
Theorem findSupportedComp_requires_effect (c : ClipInstance) (s : string) :
  isSupportedComponent (instanceBase c) s = false ->
  (_effectInstance c = None <-> findSupportedComp c s = Undefined NullEffectInstance)
  /\ (forall e, _effectInstance c = Some e -> isChromaticComponent e s = false ->
        findSupportedComp c s = Ok s)
  /\ (forall name why time renderScale,
        _effectInstance c = None -> getName (Live c) = Ok name ->
        instanceChangedAction c why time renderScale = Ok (kOfxStatFailed, [])).
Proof.
  intros Hs. split; [|split].
  - split; [intros He; apply findSupportedComp_no_effect; assumption|].
    destruct (_effectInstance c) as [e|] eqn:He; [|reflexivity].
    intros Hnull. exfalso. revert Hnull.
    destruct (isChromaticComponent e s) eqn:Hc.
    + destruct (getSupportedComponents_cases (instanceBase c)) as [[S HS]|Hnone].
      * pose proof (proj1 (isSupportedComponent_not_elem _ S s HS) Hs) as Hout.
        rewrite (findSupportedComp_chromatic c e S s He HS Hout Hc). discriminate.
      * unfold findSupportedComp. rewrite Hs, He, Hc, Hnone.
        rewrite !(isSupportedComponent_no_list _ _ Hnone). simpl.
        repeat destruct (String.eqb _ _); discriminate.
    + rewrite (findSupportedComp_not_chromatic c e s He Hs Hc). discriminate.
  - intros e He Hc. apply (findSupportedComp_not_chromatic c e s He Hs Hc).
  - intros name why time renderScale He Hn.
    apply (instanceChangedAction_unbound c name why time renderScale He Hn).
Qed.

Lemma findSupportedComp_requires_effect_witness :
  findSupportedComp (sampleClip None ["MyXYZ"%string]) kOfxImageComponentRGBA
  = Undefined NullEffectInstance.
Proof.
  refine (proj1 (proj1 (findSupportedComp_requires_effect
                          (sampleClip None ["MyXYZ"%string])
                          kOfxImageComponentRGBA _)) eq_refl).
  vm_compute. reflexivity.
Defined.

(** ** The get hook: multi-element readers *)

(** [getStringPropertyN] on its six keys: count 0 leaves the buffer as it
    is, count 1 stores the C string of what the scalar reader returns at
    index 0, and any other count is a value error. *)
Lemma getStringPropertyN_counts (c : ClipInstance) (name : string)
    (values : list string) (count : Z) :
  name ∈ stringKeys ->
  (count = 0 -> getStringPropertyN c name values count = Ok values)
  /\ (count = 1 ->
      exists v, getStringProperty c name 0 = Ok v
                /\ getStringPropertyN c name values count = poke values 0 (c_str v))
  /\ (count <> 0 -> count <> 1 ->
      getStringPropertyN c name values count = Throw kOfxStatErrValue).
Proof.
  intros Hin. split; [|split].
  - intros ->. reflexivity.
  - intros ->. key_cases Hin; eexists; split; reflexivity.
  - intros H0 H1. unfold getStringPropertyN.
    rewrite decide_False by exact H0. rewrite decide_True by exact H1. reflexivity.
Qed.

(** [getDoublePropertyN] on a single-valued key stores the accessor's value
    for every count up to 1, count 0 and the negative counts included. *)
Lemma getDoublePropertyN_counts (c : ClipInstance) (name : string)
    (values : list double) (n : Z) :
  name ∈ doubleKeys ->
  (n <= 1 ->
   exists v, getDoubleProperty c name 0 = Ok v
             /\ getDoublePropertyN c name values n = poke values 0 v)
  /\ (n > 1 -> getDoublePropertyN c name values n = Throw kOfxStatErrValue).
Proof.
  intros Hin. split; intros Hn; key_cases Hin; unfold getDoublePropertyN; simpl;
    try (rewrite decide_False by lia; eexists; split; reflexivity);
    rewrite decide_True by lia; reflexivity.
Qed.

(** [getIntPropertyN] accepts count 0 only, and stores a value then. *)
Lemma getIntPropertyN_counts (c : ClipInstance) (name : string)
    (values : list Z) (n : Z) :
  name ∈ intKeys ->
  (n = 0 ->
   exists v, getIntProperty c name 0 = Ok v
             /\ getIntPropertyN c name values n = poke values 0 v)
  /\ (n <> 0 -> getIntPropertyN c name values n = Throw kOfxStatErrValue).
Proof.
  intros Hin. split.
  - intros ->. key_cases Hin; eexists; split; reflexivity.
  - intros Hn. unfold getIntPropertyN. rewrite decide_True by exact Hn. reflexivity.
Qed.

(** C2, at the failing inputs: a read of count 1 through [getIntPropertyN]
    is a value error on both integer keys, whatever the buffer; a read of
    count 0 through [getIntPropertyN] or [getDoublePropertyN] overwrites the
    first element of the buffer, and runs past a buffer of no element; a
    negative count is no error for [getDoublePropertyN]. *)
Theorem multi_readers_count_divergence (c : ClipInstance) :
  (forall values,
     getIntPropertyN c kOfxImageClipPropConnected values 1 = Throw kOfxStatErrValue
     /\ getIntPropertyN c kOfxImageClipPropContinuousSamples values 1
        = Throw kOfxStatErrValue)
  /\ (forall old,
        getIntPropertyN c kOfxImageClipPropConnected [old] 0
        = Ok [int_of_bool (getConnected (virtuals c))])
  /\ getIntPropertyN c kOfxImageClipPropConnected [] 0 = Undefined OutOfBounds
  /\ (forall old,
        getDoublePropertyN c kOfxImagePropPixelAspectRatio [old] 0
        = Ok [getAspectRatio (virtuals c)])
  /\ getDoublePropertyN c kOfxImagePropPixelAspectRatio [] 0 = Undefined OutOfBounds
  /\ (forall old,
        getDoublePropertyN c kOfxImagePropPixelAspectRatio [old] (-1)
        = Ok [getAspectRatio (virtuals c)]).
Proof.
  repeat split; reflexivity.
Qed.

(** ** The get hook: scalar readers *)

Lemma getStringProperty_index (c : ClipInstance) (name : string) (n : Z) :
  name ∈ stringKeys ->
  (n = 0 -> exists v, getStringProperty c name n = Ok v)
  /\ (n <> 0 -> getStringProperty c name n = Throw kOfxStatErrValue).
Proof.
  intros Hin. split.
  - intros ->. key_cases Hin; eexists; reflexivity.
  - intros Hn. unfold getStringProperty. rewrite decide_True by exact Hn. reflexivity.
Qed.

Lemma getIntProperty_index (c : ClipInstance) (name : string) (n : Z) :
  name ∈ intKeys ->
  (n = 0 -> exists v, getIntProperty c name n = Ok v)
  /\ (n <> 0 -> getIntProperty c name n = Throw kOfxStatErrValue).
Proof.
  intros Hin. split.
  - intros ->. key_cases Hin; eexists; reflexivity.
  - intros Hn. unfold getIntProperty. rewrite decide_True by exact Hn. reflexivity.
Qed.

(** The aspect ratio and the frame rate are read at index 0 only. *)
Lemma getDoubleProperty_index_strict (c : ClipInstance) (name : string) (n : Z) :
  name ∈ [kOfxImagePropPixelAspectRatio; kOfxImageEffectPropFrameRate] ->
  (n = 0 -> exists v, getDoubleProperty c name n = Ok v)
  /\ (n <> 0 -> getDoubleProperty c name n = Throw kOfxStatErrValue).
Proof.
  intros Hin. split.
  - intros ->. key_cases Hin; eexists; reflexivity.
  - intros Hn. key_cases Hin; unfold getDoubleProperty; simpl;
      rewrite decide_True by exact Hn; reflexivity.
Qed.

(** The unmapped frame rate is read at every index up to 0. *)
Lemma getDoubleProperty_unmapped_rate (c : ClipInstance) (n : Z) :
  getDoubleProperty c kOfxImageEffectPropUnmappedFrameRate n =
    if decide (n > 0) then Throw kOfxStatErrValue
    else Ok (getUnmappedFrameRate (virtuals c)).
Proof. reflexivity. Qed.

(** A range key is read at indices 0 and 1, is a value error above, and
    indexes the two-element array out of bounds below. *)
Lemma getDoubleProperty_range (c : ClipInstance) (name : string) (n : Z) :
  name ∈ rangeKeys ->
  (n = 0 \/ n = 1 -> exists v, getDoubleProperty c name n = Ok v)
  /\ (n > 1 -> getDoubleProperty c name n = Throw kOfxStatErrValue)
  /\ (n < 0 -> getDoubleProperty c name n = Undefined OutOfBounds).
Proof.
  intros Hin. split; [|split].
  - intros [-> | ->]; key_cases Hin; eexists; reflexivity.
  - intros Hn. key_cases Hin; unfold getDoubleProperty; simpl;
      rewrite decide_True by exact Hn; reflexivity.
  - intros Hn. key_cases Hin; unfold getDoubleProperty; simpl;
      rewrite decide_False by lia; apply peek_negative; exact Hn.
Qed.

(** C3, at the failing inputs: at index -1 the scalar read of the unmapped
    frame rate returns the accessor's value, and the scalar reads of the two
    range keys index their two-element array out of bounds; none of them is
    a value error. *)
Theorem getDoubleProperty_negative_index (c : ClipInstance) :
  getDoubleProperty c kOfxImageEffectPropUnmappedFrameRate (-1)
  = Ok (getUnmappedFrameRate (virtuals c))
  /\ getDoubleProperty c kOfxImageEffectPropFrameRange (-1) = Undefined OutOfBounds
  /\ getDoubleProperty c kOfxImageEffectPropUnmappedFrameRange (-1)
     = Undefined OutOfBounds.
Proof.
  repeat split; reflexivity.
Qed.

(** The dimension the hook reports, and the components round trip. *)
Example getDimension_scenario :
  getDimension kOfxImageEffectPropFrameRange = 2
  /\ getDimension kOfxImageEffectPropUnmappedFrameRange = 2
  /\ getDimension kOfxImageEffectPropFrameRate = 1.
Proof. repeat split; reflexivity. Qed.

Lemma getComponents_setComponents (s : string) (c : ClipInstance) :
  getComponents (setComponents s c) = s.
Proof. reflexivity. Qed.

(** ** Images built from a clip *)

Lemma getClipBits_calls (instance : ClipInstance) (depth comps premult : string)
    (aspect : double) (this : Building) :
  clipYields instance depth comps premult aspect ->
  getClipBits instance this =
    Ok (call (SetDouble kOfxImagePropPixelAspectRatio aspect 0)
          (call (SetString kOfxImageEffectPropPreMultiplication premult 0)
             (call (SetString kOfxImageEffectPropComponents comps 0)
                (call (SetString kOfxImageEffectPropPixelDepth depth 0) this)))).
Proof.
  intros (H1 & H2 & H3 & H4). unfold getClipBits.
  rewrite H1, H2, H3, H4. reflexivity.
Qed.

(** An image exists only if the clip's bag yielded the four values. *)
Lemma getClipBits_reads (instance : ClipInstance) (this b : Building) :
  getClipBits instance this = Ok b ->
  exists depth comps premult aspect,
    clipYields instance depth comps premult aspect.
Proof.
  unfold getClipBits, clipYields.
  destruct (Property.getStringProperty _ _ kOfxImageEffectPropPixelDepth 0)
    as [depth| |]; simpl; try discriminate.
  destruct (Property.getStringProperty _ _ kOfxImageEffectPropComponents 0)
    as [comps| |]; simpl; try discriminate.
  destruct (Property.getStringProperty _ _ kOfxImageEffectPropPreMultiplication 0)
    as [premult| |]; simpl; try discriminate.
  destruct (Property.getDoubleProperty _ _ kOfxImagePropPixelAspectRatio 0)
    as [aspect| |]; simpl; try discriminate.
  intros _. exists depth, comps, premult, aspect. auto.
Qed.

(** The image schema declares no clip-field-order key. *)
Remark imageBaseStuffs_no_field_order :
  kOfxImageClipPropFieldOrder ∉ Property.name <$> imageBaseStuffs.
Proof. by_computation. Qed.

Lemma ofClip_snapshots (instance : ClipInstance)
    (depth comps premult : string) (aspect : double) :
  clipYields instance depth comps premult aspect ->
  exists b, ImageBase_ofClip instance = Ok b
            /\ snapshots (built b) depth comps premult aspect
            /\ _referenceCount (built b) = 1.
Proof.
  intros Hy. eexists. split; [apply (getClipBits_calls _ _ _ _ _ _ Hy)|].
  split; [|reflexivity]. repeat split; vm_compute; reflexivity.
Qed.



(** A clip instance fresh from its constructor yields its accessors' values,
    and the components last set, so that an image can always be built. *)
Lemma constructed_clip_yields (effect : option Instance) (name comps : string)
    (isOutput : bool) (v : Virtuals) :
  clipYields
    (setComponents comps
       (ClipInstance_new effect (ClipDescriptor_new name) isOutput v))
    (getPixelDepth v) comps (getPremult v) (getAspectRatio v).
Proof. repeat split; vm_compute; reflexivity. Qed.

(** Every image that was built took its four values from the clip's bag. *)
Lemma built_image_snapshots (instance : ClipInstance) (b : Building) :
  ImageBase_ofClip instance = Ok b ->
  exists depth comps premult aspect,
    clipYields instance depth comps premult aspect
    /\ snapshots (built b) depth comps premult aspect.
Proof.
  intros Hb.
  destruct (getClipBits_reads instance initialised b Hb)
    as (depth & comps & premult & aspect & Hy).
  exists depth, comps, premult, aspect. split; [exact Hy|].
  destruct (ofClip_snapshots instance depth comps premult aspect Hy)
    as (b' & Hb' & Hs & _).
  rewrite Hb in Hb'. injection Hb' as ->. exact Hs.
Qed.

(** The [Image] subclass adds its data pointer and keeps the snapshot. *)
Lemma Image_snapshots (instance : ClipInstance) (depth comps premult : string)
    (aspect renderScaleX renderScaleY : double) (data : pointer)
    (bounds rod : OfxRectI) (rowBytes : Z) (field uniqueIdentifier : string) :
  clipYields instance depth comps premult aspect ->
  (exists b, Image_ofClip instance = Ok b
             /\ snapshots (built b) depth comps premult aspect
             /\ stored (built b) kOfxImagePropData
                = Some (Property.PointerValues [0]))
  /\ (exists b, Image_ofClipGeometry instance renderScaleX renderScaleY data
                  bounds rod rowBytes field uniqueIdentifier = Ok b
                /\ snapshots (built b) depth comps premult aspect
                /\ stored (built b) kOfxImagePropData
                   = Some (Property.PointerValues [data])).
Proof.
  intros Hy. split.
  - unfold Image_ofClip, ImageBase_ofClip.
    rewrite (getClipBits_calls _ _ _ _ _ _ Hy). cbn [bind].
    eexists. split; [reflexivity|]. repeat split; vm_compute; reflexivity.
  - unfold Image_ofClipGeometry, ImageBase_ofClipGeometry.
    rewrite (getClipBits_calls _ _ _ _ _ _ Hy). cbn [bind].
    eexists. split; [reflexivity|]. repeat split; vm_compute; reflexivity.
Qed.

(** ** Reference counting *)

Lemma wrapInt_in_range (z : Z) : INT_MIN <= z <= INT_MAX -> wrapInt z = z.
Proof.
  unfold wrapInt, INT_MIN, INT_MAX. intros Hz. rewrite Z.mod_small by lia. lia.
Qed.

Lemma wrapInt_range (z : Z) : INT_MIN <= wrapInt z <= INT_MAX.
Proof.
  unfold wrapInt, INT_MIN, INT_MAX.
  pose proof (Z.mod_pos_bound (z - -2147483648) 4294967296 ltac:(lia)). lia.
Qed.

Lemma wrapInt_add (z d : Z) : wrapInt (wrapInt z + d) = wrapInt (z + d).
Proof.
  unfold wrapInt. f_equal.
  replace ((z - INT_MIN) mod 4294967296 + INT_MIN + d - INT_MIN)
    with ((z - INT_MIN) mod 4294967296 + d) by lia.
  replace (z + d - INT_MIN) with (z - INT_MIN + d) by lia.
  apply Zplus_mod_idemp_l.
Qed.

Lemma refStep_undefined (f : Fault) (ops : list RefOp) :
  foldl refStep (Undefined f) ops = Undefined f.
Proof. induction ops as [|op ops IH]; simpl; [reflexivity | exact IH]. Qed.

Lemma refStep_add (img : ImageBase) (runs : nat) :
  refStep (Ok {| object := Some img; destructorRuns := runs |}) AddRef
  = Ok {| object := Some (withCount (wrapInt (_referenceCount img + 1)) img);
          destructorRuns := runs |}.
Proof. reflexivity. Qed.

Lemma refStep_release (img : ImageBase) (runs : nat) :
  refStep (Ok {| object := Some img; destructorRuns := runs |}) Release
  = if decide (wrapInt (_referenceCount img - 1) <= 0) then
      Ok {| object := None; destructorRuns := S runs |}
    else Ok {| object := Some (withCount (wrapInt (_referenceCount img - 1)) img);
               destructorRuns := runs |}.
Proof. reflexivity. Qed.

Lemma refStep_freed (runs : nat) (op : RefOp) :
  refStep (Ok {| object := None; destructorRuns := runs |}) op
  = Undefined UseAfterFree.
Proof. destruct op; reflexivity. Qed.

(** References added to a live image are counted one by one, modulo 2^32. *)
Lemma run_adds_wrap (k : nat) (img : ImageBase) (runs : nat) :
  INT_MIN <= _referenceCount img <= INT_MAX ->
  foldl refStep (Ok {| object := Some img; destructorRuns := runs |})
    (replicate k AddRef)
  = Ok {| object := Some (withCount (wrapInt (_referenceCount img + Z.of_nat k)) img);
          destructorRuns := runs |}.
Proof.
  revert img. induction k as [|k IH]; intros img Hrange.
  - cbn [replicate foldl]. destruct img as [props count]. unfold withCount.
    cbn [_referenceCount imageProps] in *.
    rewrite Z.add_0_r, wrapInt_in_range by exact Hrange. reflexivity.
  - cbn [replicate foldl]. rewrite refStep_add.
    rewrite IH by (unfold withCount; cbn [_referenceCount]; apply wrapInt_range).
    unfold withCount. cbn [_referenceCount imageProps]. rewrite wrapInt_add.
    replace (_referenceCount img + 1 + Z.of_nat k)
      with (_referenceCount img + Z.of_nat (S k)) by lia.
    reflexivity.
Qed.

(** As long as the counter does not pass [INT_MAX], it is the plain sum. *)
Lemma run_adds (k : nat) (img : ImageBase) (runs : nat) :
  INT_MIN <= _referenceCount img ->
  _referenceCount img + Z.of_nat k <= INT_MAX ->
  foldl refStep (Ok {| object := Some img; destructorRuns := runs |})
    (replicate k AddRef)
  = Ok {| object := Some (withCount (_referenceCount img + Z.of_nat k) img);
          destructorRuns := runs |}.
Proof.
  intros Hlow Hhigh. rewrite run_adds_wrap by lia.
  rewrite wrapInt_in_range by lia. reflexivity.
Qed.

(** Releases on a live image whose count is positive: the count goes down
    by one each time, the release that brings it to zero destroys the
    object, and a release after that one reaches freed storage. *)
Lemma run_releases (n : nat) (img : ImageBase) (runs : nat) :
  0 < _referenceCount img <= INT_MAX ->
  foldl refStep (Ok {| object := Some img; destructorRuns := runs |})
    (replicate n Release)
  = if decide (Z.of_nat n < _referenceCount img) then
      Ok {| object := Some (withCount (_referenceCount img - Z.of_nat n) img);
            destructorRuns := runs |}
    else if decide (Z.of_nat n = _referenceCount img) then
      Ok {| object := None; destructorRuns := S runs |}
    else Undefined UseAfterFree.
Proof.
  revert img. induction n as [|n IH]; intros img Hpos.
  - cbn [replicate foldl]. rewrite decide_True by lia.
    destruct img as [props count]. unfold withCount.
    cbn [_referenceCount imageProps]. rewrite Z.sub_0_r. reflexivity.
  - cbn [replicate foldl]. rewrite refStep_release.
    rewrite wrapInt_in_range by (unfold INT_MIN; lia).
    destruct (decide (_referenceCount img - 1 <= 0)) as [Hlast|Hmore].
    + rewrite decide_False by lia.
      destruct n as [|n].
      * cbn [replicate foldl]. rewrite decide_True by lia. reflexivity.
      * cbn [replicate foldl]. rewrite refStep_freed, refStep_undefined.
        rewrite decide_False by lia. reflexivity.
    + rewrite IH by (unfold withCount; cbn [_referenceCount]; lia).
      unfold withCount. cbn [_referenceCount imageProps].
      destruct (decide (Z.of_nat n < _referenceCount img - 1)) as [Hlt|Hge].
      * rewrite decide_True by lia.
        replace (_referenceCount img - 1 - Z.of_nat n)
          with (_referenceCount img - Z.of_nat (S n)) by lia.
        reflexivity.
      * rewrite (decide_False (P := Z.of_nat (S n) < _referenceCount img)) by lia.
        destruct (decide (Z.of_nat n = _referenceCount img - 1)) as [Heq|Hne].
        -- rewrite decide_True by lia. reflexivity.
        -- rewrite decide_False by lia. reflexivity.
Qed.

(** A release of a live image whose count is not [INT_MIN] takes exactly
    one off the count, and destroys the image when the new count is not
    positive. *)
Lemma releaseReference_live (cell : Cell) (img : ImageBase) :
  object cell = Some img ->
  INT_MIN < _referenceCount img <= INT_MAX ->
  exists cell', releaseReference cell = Ok cell'
    /\ match object cell' with
       | Some img' =>
           _referenceCount img' = _referenceCount img - 1
           /\ destructorRuns cell' = destructorRuns cell
       | None =>
           _referenceCount img - 1 <= 0
           /\ destructorRuns cell' = S (destructorRuns cell)
       end.
Proof.
  intros Hobj Hrange. unfold releaseReference. rewrite Hobj.
  cbn [withCount _referenceCount]. rewrite wrapInt_in_range by lia.
  case_decide; eexists; (split; [reflexivity|]); simpl; auto.
Qed.

(** Where the counter wraps: a release at [INT_MIN] leaves the image alive
    with count [INT_MAX]. *)
Lemma releaseReference_at_INT_MIN (img : ImageBase) (runs : nat) :
  _referenceCount img = INT_MIN ->
  releaseReference {| object := Some img; destructorRuns := runs |}
  = Ok {| object := Some (withCount INT_MAX img); destructorRuns := runs |}.
Proof.
  intros Hmin. unfold releaseReference. cbn [object destructorRuns].
  cbn [withCount _referenceCount]. rewrite Hmin.
  assert (Hwrap : wrapInt (INT_MIN - 1) = INT_MAX) by (vm_compute; reflexivity).
  rewrite Hwrap. rewrite decide_False by (unfold INT_MAX; lia). reflexivity.
Qed.

(** Where the counter wraps: after 2^31 additions to a fresh image the
    count is negative, and the first release destroys the image. *)
Lemma reference_count_overflow (img : ImageBase) (k : nat) :
  _referenceCount img = 1 ->
  Z.of_nat k = 2147483648 ->
  runRefOps (replicate k AddRef ++ [Release]) (allocate img)
  = Ok {| object := None; destructorRuns := 1 |}.
Proof.
  intros Hone Hk. unfold runRefOps, allocate. rewrite foldl_app.
  rewrite run_adds_wrap by (rewrite Hone; unfold INT_MIN, INT_MAX; lia).
  rewrite Hone, Hk. cbn [foldl]. rewrite refStep_release.
  cbn [withCount _referenceCount].
  assert (Hwrap : wrapInt (wrapInt (1 + 2147483648) - 1) = INT_MIN)
    by (vm_compute; reflexivity).
  rewrite Hwrap. rewrite decide_True by (unfold INT_MIN; lia). reflexivity.
Qed.

(** C6, as amended: on an image whose count is 1, as every constructor
    leaves it, [k] calls of [addReference], few enough for the [int] counter
    not to pass [INT_MAX], followed by [n] calls of [releaseReference] leave
    the image alive with count [1 + k - n] and the destructor not run when
    [n <= k]; destroy it exactly once, on the last release, when [n = k + 1];
    and release freed storage when [n > k + 1].  Each release of a live image
    whose count is not [INT_MIN] takes exactly 1 off the count. *)
Theorem reference_count_lifetime (img : ImageBase) (k n : nat) :
  _referenceCount img = 1 ->
  Z.of_nat k < INT_MAX ->
  ((n <= k)%nat ->
   runRefOps (replicate k AddRef ++ replicate n Release) (allocate img)
   = Ok {| object := Some (withCount (1 + Z.of_nat k - Z.of_nat n) img);
           destructorRuns := 0 |})
  /\ (n = S k ->
      runRefOps (replicate k AddRef ++ replicate n Release) (allocate img)
      = Ok {| object := None; destructorRuns := 1 |})
  /\ ((n > S k)%nat ->
      runRefOps (replicate k AddRef ++ replicate n Release) (allocate img)
      = Undefined UseAfterFree)
  /\ (forall cell live, object cell = Some live ->
        INT_MIN < _referenceCount live <= INT_MAX ->
        exists cell', releaseReference cell = Ok cell'
          /\ match object cell' with
             | Some live' =>
                 _referenceCount live' = _referenceCount live - 1
                 /\ destructorRuns cell' = destructorRuns cell
             | None =>
                 _referenceCount live - 1 <= 0
                 /\ destructorRuns cell' = S (destructorRuns cell)
             end).
Proof.
  intros Hone Hk.
  assert (Hrun : runRefOps (replicate k AddRef ++ replicate n Release) (allocate img)
                 = if decide (Z.of_nat n < 1 + Z.of_nat k) then
                     Ok {| object := Some (withCount (1 + Z.of_nat k - Z.of_nat n) img);
                           destructorRuns := 0 |}
                   else if decide (Z.of_nat n = 1 + Z.of_nat k) then
                     Ok {| object := None; destructorRuns := 1 |}
                   else Undefined UseAfterFree).
  { unfold runRefOps, allocate. rewrite foldl_app.
    rewrite run_adds by (rewrite Hone; unfold INT_MIN; lia).
    rewrite run_releases by (unfold withCount; cbn [_referenceCount]; lia).
    unfold withCount. cbn [_referenceCount imageProps]. rewrite Hone.
    destruct (decide (Z.of_nat n < 1 + Z.of_nat k)) as [Hlt|Hge]; [reflexivity|].
    destruct (decide (Z.of_nat n = 1 + Z.of_nat k)); reflexivity. }
  rewrite Hrun. repeat split.
  - intros Hle. rewrite decide_True by lia. reflexivity.
  - intros ->. rewrite decide_False by lia. rewrite decide_True by lia. reflexivity.
  - intros Hgt. rewrite decide_False by lia. rewrite decide_False by lia. reflexivity.
  - intros cell live Hobj Hrange. apply releaseReference_live; assumption.
Qed.

Lemma reference_count_lifetime_witness :
  runRefOps (replicate 2 AddRef ++ replicate 3 Release) (allocate ImageBase_new)
  = Ok {| object := None; destructorRuns := 1 |}.
Proof.
  exact (proj1 (proj2 (reference_count_lifetime ImageBase_new 2 3 eq_refl eq_refl))
           eq_refl).
Defined.

(** C6, as stated, fails: a second release of an image that was never
    shared finds the storage freed by the first, so the outcome of two
    releases is not a state in which the destructor has run exactly once. *)
Lemma reference_count_second_release_counterexample :
  runRefOps (replicate 0 AddRef ++ replicate 2 Release) (allocate ImageBase_new)
  = Undefined UseAfterFree
  /\ ~ (exists cell,
          runRefOps (replicate 0 AddRef ++ replicate 2 Release) (allocate ImageBase_new)
          = Ok cell
          /\ destructorRuns cell = 1%nat).
Proof.
  split; [reflexivity|]. intros (cell & Hrun & _). discriminate Hrun.
Qed.

(** ** Cloning a descriptor into an instance *)

Lemma createProperty_keeps (spec : Property.PropSpec)
    (s : gmap string Property.Property) (k : string) (p : Property.Property) :
  s !! k = Some p -> Property.createProperty spec s !! k = Some p.
Proof.
  intros Hk. unfold Property.createProperty.
  destruct (s !! Property.name spec) eqn:Hname; [exact Hk|].
  destruct (Property.initialValues spec); [|exact Hk].
  rewrite lookup_insert_ne; [exact Hk|]. intros <-. congruence.
Qed.

Lemma addProperties_keeps (specs : list Property.PropSpec)
    (s : gmap string Property.Property) (k : string) (p : Property.Property) :
  s !! k = Some p -> Property.addProperties specs s !! k = Some p.
Proof.
  revert s. induction specs as [|spec specs IH]; intros s Hk; [exact Hk|].
  apply (IH (Property.createProperty spec s)), createProperty_keeps, Hk.
Qed.

Lemma createProperty_declares (spec : Property.PropSpec)
    (s : gmap string Property.Property) :
  Property.type spec <> Property.eNone ->
  is_Some (Property.createProperty spec s !! Property.name spec).
Proof.
  intros Hty. unfold Property.createProperty.
  destruct (s !! Property.name spec) eqn:Hname; [rewrite Hname; eauto|].
  unfold Property.initialValues.
  destruct (Property.type spec); try congruence;
    rewrite lookup_insert_eq; eauto.
Qed.

Lemma addProperties_declares (specs : list Property.PropSpec)
    (s : gmap string Property.Property) (spec : Property.PropSpec) :
  spec ∈ specs ->
  Property.type spec <> Property.eNone ->
  is_Some (Property.addProperties specs s !! Property.name spec).
Proof.
  revert s. induction specs as [|first specs IH]; intros s Hin Hty.
  - apply elem_of_nil in Hin. destruct Hin.
  - apply elem_of_cons in Hin as [->|Hin].
    + destruct (createProperty_declares first s Hty) as [p Hp].
      exists p. apply (addProperties_keeps specs), Hp.
    + apply (IH (Property.createProperty first s) Hin Hty).
Qed.

(** Installing get hooks changes neither the keys nor the read-only flags. *)
Lemma setGetHook_lookup (name k : string) (s : gmap string Property.Property)
    (p : Property.Property) :
  s !! k = Some p ->
  exists p', Property.setGetHook name s !! k = Some p'
             /\ Property._pluginReadOnly p' = Property._pluginReadOnly p.
Proof.
  intros Hk. unfold Property.setGetHook.
  destruct (decide (name = k)) as [->|Hne].
  - rewrite lookup_alter_eq, Hk. simpl. eauto.
  - rewrite lookup_alter_ne by exact Hne. eauto.
Qed.

Lemma hooks_lookup (specs : list Property.PropSpec)
    (s : gmap string Property.Property) (k : string) (p : Property.Property) :
  s !! k = Some p ->
  exists p',
    foldl (fun acc spec =>
             match Property.type spec with
             | Property.eDouble | Property.eString | Property.eInt =>
                 Property.setGetHook (Property.name spec) acc
             | _ => acc
             end) s specs !! k = Some p'
    /\ Property._pluginReadOnly p' = Property._pluginReadOnly p.
Proof.
  revert s p. induction specs as [|spec specs IH]; intros s p Hk; [eauto|].
  cbn [foldl].
  destruct (Property.type spec);
    try (apply (IH s p Hk));
    destruct (setGetHook_lookup (Property.name spec) k s p Hk) as (q & Hq & Hflag);
    destruct (IH _ q Hq) as (p' & Hp' & Hflag'); exists p';
    (split; [exact Hp' | congruence]).
Qed.

(** A key of the instance's bag that exists after [addProperties] exists in
    the finished instance. *)
Lemma ClipInstance_new_lookup (effect : option Instance) (D : ClipDescriptor)
    (isOutput : bool) (v : Virtuals) (k : string) (p : Property.Property) :
  Property.addProperties clipInstanceStuffs
    (_properties (ClipBase_copy (descriptorBase D))) !! k = Some p ->
  exists p',
    _properties (instanceBase (ClipInstance_new effect D isOutput v)) !! k = Some p'
    /\ Property._pluginReadOnly p' = Property._pluginReadOnly p.
Proof. intros Hk. apply (hooks_lookup clipInstanceStuffs _ k p Hk). Qed.

(** C7: in the instance cloned from a descriptor [D], every property of [D]
    is there and writable by the plug-in, those that were plug-in read-only
    in [D] among them; the keys of the instance include the keys of [D] and
    every key of the instance schema. *)
Theorem clone_promotes_properties (effect : option Instance) (D : ClipDescriptor)
    (isOutput : bool) (v : Virtuals) :
  (forall k p,
     _properties (descriptorBase D) !! k = Some p ->
     Property._pluginReadOnly p = true ->
     exists p',
       _properties (instanceBase (ClipInstance_new effect D isOutput v)) !! k = Some p'
       /\ Property._pluginReadOnly p' = false)
  /\ dom (_properties (descriptorBase D))
     ⊆ dom (_properties (instanceBase (ClipInstance_new effect D isOutput v)))
  /\ (forall spec, spec ∈ clipInstanceStuffs ->
        Property.name spec
        ∈ dom (_properties (instanceBase (ClipInstance_new effect D isOutput v)))).
Proof.
  assert (Hkeep : forall k p,
            _properties (descriptorBase D) !! k = Some p ->
            exists p',
              _properties (instanceBase (ClipInstance_new effect D isOutput v)) !! k
              = Some p'
              /\ Property._pluginReadOnly p' = false).
  { intros k p Hk.
    assert (Hcopy : _properties (ClipBase_copy (descriptorBase D)) !! k
                    = Some (Property.setPluginReadOnly false p)).
    { unfold ClipBase_copy. cbn [_properties]. rewrite lookup_fmap, Hk. reflexivity. }
    apply (addProperties_keeps clipInstanceStuffs) in Hcopy.
    destruct (ClipInstance_new_lookup effect D isOutput v k _ Hcopy)
      as (p' & Hp' & Hflag).
    exists p'. split; [exact Hp' | exact Hflag]. }
  split; [|split].
  - intros k p Hk _. apply (Hkeep k p Hk).
  - intros k Hk. apply elem_of_dom in Hk as [p Hk]. apply elem_of_dom.
    destruct (Hkeep k p Hk) as (p' & Hp' & _). eauto.
  - intros spec Hin. apply elem_of_dom.
    assert (Hty : Property.type spec <> Property.eNone).
    { key_cases Hin; discriminate. }
    destruct (addProperties_declares clipInstanceStuffs
                (_properties (ClipBase_copy (descriptorBase D))) spec Hin Hty)
      as [p Hp].
    destruct (ClipInstance_new_lookup effect D isOutput v _ p Hp) as (p' & Hp' & _).
    eauto.
Qed.

(** The name and the type of a descriptor are plug-in read-only, and
    writable once in an instance. *)
Example clone_promotes_name :
  (Property._pluginReadOnly
     <$> _properties (descriptorBase (ClipDescriptor_new "Source")) !! kOfxPropName)
  = Some true
  /\ (Property._pluginReadOnly
        <$> _properties (instanceBase (sampleClip None [])) !! kOfxPropName)
     = Some false
  /\ (Property._pluginReadOnly
        <$> _properties (instanceBase (sampleClip None []))
            !! kOfxImageEffectPropPixelDepth)
     = Some true.
Proof. vm_compute. repeat split; reflexivity. Qed.

(** ** instanceChangedAction *)

(** A string without a NUL character is its own C string. *)
Lemma c_str_without_nul (s : string) :
  (forall a, In a (list_ascii_of_string s) -> a <> Ascii.zero) -> c_str s = s.
Proof.
  induction s as [|a r IH]; intros Hnul; [reflexivity|]. simpl.
  destruct (Ascii.eqb_spec a Ascii.zero) as [->|_].
  - exfalso. apply (Hnul Ascii.zero); [left; reflexivity | reflexivity].
  - f_equal. apply IH. intros b Hb. apply Hnul. right. exact Hb.
Qed.

(** The five keys of [inArgs] and what each holds. *)
Lemma instanceChangedArgs_contents (name why : string) (time : double)
    (renderScale : OfxPointD) :
  dom (instanceChangedArgs name why time renderScale)
  = {[ kOfxPropType; kOfxPropName; kOfxPropChangeReason; kOfxPropTime;
       kOfxImageEffectPropRenderScale ]}
  /\ Property._value <$> instanceChangedArgs name why time renderScale !! kOfxPropType
     = Some (Property.StringValues [kOfxTypeClip])
  /\ Property._value <$> instanceChangedArgs name why time renderScale !! kOfxPropName
     = Some (Property.StringValues [c_str name])
  /\ Property._value
       <$> instanceChangedArgs name why time renderScale !! kOfxPropChangeReason
     = Some (Property.StringValues [c_str why])
  /\ Property._value <$> instanceChangedArgs name why time renderScale !! kOfxPropTime
     = Some (Property.DoubleValues [time])
  /\ Property._value
       <$> instanceChangedArgs name why time renderScale
           !! kOfxImageEffectPropRenderScale
     = Some (Property.DoubleValues [OfxCore.x renderScale; OfxCore.y renderScale]).
Proof.
  destruct renderScale as [sx sy].
  split; [by_computation|]. repeat split; vm_compute; reflexivity.
Qed.

(** C8, as amended: [instanceChangedAction] builds a bag with exactly the
    keys type, name, change reason, time and render scale, holding "clip"
    ([OfxTypeClip]), the clip's name and [why] each up to its first NUL
    character (so the whole of it when it has none), [time], and the two
    elements of [renderScale]; with an effect bound it calls the effect's
    [mainEntry] once, with the instance-changed action, the effect's handle
    and that bag, and returns that call's status; with none bound it returns
    the failed status and calls nothing. *)
Theorem instanceChangedAction_packages (c : ClipInstance) (name why : string)
    (time : double) (renderScale : OfxPointD) :
  getName (Live c) = Ok name ->
  (dom (instanceChangedArgs name why time renderScale)
   = {[ kOfxPropType; kOfxPropName; kOfxPropChangeReason; kOfxPropTime;
        kOfxImageEffectPropRenderScale ]}
   /\ Property._value <$> instanceChangedArgs name why time renderScale !! kOfxPropType
      = Some (Property.StringValues [kOfxTypeClip])
   /\ Property._value <$> instanceChangedArgs name why time renderScale !! kOfxPropName
      = Some (Property.StringValues [c_str name])
   /\ Property._value
        <$> instanceChangedArgs name why time renderScale !! kOfxPropChangeReason
      = Some (Property.StringValues [c_str why])
   /\ Property._value <$> instanceChangedArgs name why time renderScale !! kOfxPropTime
      = Some (Property.DoubleValues [time])
   /\ Property._value
        <$> instanceChangedArgs name why time renderScale
            !! kOfxImageEffectPropRenderScale
      = Some (Property.DoubleValues [OfxCore.x renderScale; OfxCore.y renderScale]))
  /\ ((forall a, In a (list_ascii_of_string name) -> a <> Ascii.zero) ->
      c_str name = name)
  /\ ((forall a, In a (list_ascii_of_string why) -> a <> Ascii.zero) ->
      c_str why = why)
  /\ (forall e, _effectInstance c = Some e ->
        instanceChangedAction c why time renderScale =
          Ok (mainEntry e kOfxActionInstanceChanged (getHandle e)
                (Some (instanceChangedArgs name why time renderScale)) None,
              [ {| callAction := kOfxActionInstanceChanged;
                   callHandle := getHandle e;
                   callInArgs := Some (instanceChangedArgs name why time renderScale);
                   callOutArgs := None |} ]))
  /\ (_effectInstance c = None ->
      instanceChangedAction c why time renderScale = Ok (kOfxStatFailed, [])).
Proof.
  intros Hn. split; [apply instanceChangedArgs_contents|].
  split; [apply c_str_without_nul|]. split; [apply c_str_without_nul|]. split.
  - intros e He. apply (instanceChangedAction_bound c e name why time renderScale He Hn).
  - intros He. apply (instanceChangedAction_unbound c name why time renderScale He Hn).
Qed.

Lemma instanceChangedAction_packages_witness :
  instanceChangedAction (sampleClip (Some sampleEffect) []) "OfxChangeUserEdited"
    (double_of_Z 3) {| OfxCore.x := double_of_Z 1; OfxCore.y := double_of_Z 1 |}
  = Ok (14,
        [ {| callAction := kOfxActionInstanceChanged;
             callHandle := 4096;
             callInArgs :=
               Some (instanceChangedArgs "Source" "OfxChangeUserEdited" (double_of_Z 3)
                       {| OfxCore.x := double_of_Z 1; OfxCore.y := double_of_Z 1 |});
             callOutArgs := None |} ]).
Proof.
  refine (proj1 (proj2 (proj2 (proj2
            (instanceChangedAction_packages (sampleClip (Some sampleEffect) [])
               "Source" "OfxChangeUserEdited" (double_of_Z 3)
               {| OfxCore.x := double_of_Z 1; OfxCore.y := double_of_Z 1 |} _))))
            sampleEffect eq_refl).
  vm_compute. reflexivity.
Defined.

(** C8, as stated, fails: for a change reason with a NUL character inside,
    the bag handed to the effect holds the characters before the NUL, not
    the reason. *)
Lemma instanceChangedAction_reason_with_nul_counterexample :
  exists inArgs,
    instanceChangedAction (sampleClip (Some sampleEffect) []) reasonWithNul
      (double_of_Z 3) {| OfxCore.x := double_of_Z 1; OfxCore.y := double_of_Z 1 |}
    = Ok (14,
          [ {| callAction := kOfxActionInstanceChanged;
               callHandle := 4096;
               callInArgs := Some inArgs;
               callOutArgs := None |} ])
    /\ Property._value <$> inArgs !! kOfxPropChangeReason
       = Some (Property.StringValues ["a"%string])
    /\ Property._value <$> inArgs !! kOfxPropChangeReason
       <> Some (Property.StringValues [reasonWithNul]).
Proof.
  exists (instanceChangedArgs "Source" reasonWithNul (double_of_Z 3)
            {| OfxCore.x := double_of_Z 1; OfxCore.y := double_of_Z 1 |}).
  split; [vm_compute; reflexivity|].
  split; [vm_compute; reflexivity|].
  vm_compute. discriminate.
Qed.

(** ** Labels *)

(** C9: on a descriptor or an instance, [getLabel] returns the label
    property when it is not empty and the name otherwise; [getShortLabel]
    and [getLongLabel] return their own property when it is not empty and
    what [getLabel] returns otherwise. *)
Theorem label_fallback (c : Clip) (label shortLabel longLabel : string) :
  Property.getStringProperty (hookOf c) (getProps c) kOfxPropLabel 0 = Ok label ->
  Property.getStringProperty (hookOf c) (getProps c) kOfxPropShortLabel 0
  = Ok shortLabel ->
  Property.getStringProperty (hookOf c) (getProps c) kOfxPropLongLabel 0
  = Ok longLabel ->
  getLabel c = (if decide (label = EmptyString) then getName c else Ok label)
  /\ getShortLabel c
     = (if decide (shortLabel = EmptyString) then getLabel c else Ok shortLabel)
  /\ getLongLabel c
     = (if decide (longLabel = EmptyString) then getLabel c else Ok longLabel).
Proof.
  intros Hl Hs Hg. unfold getShortLabel, getLongLabel.
  rewrite Hs, Hg. unfold getLabel at 1. rewrite Hl. cbn [bind].
  repeat split.
  - destruct (String.eqb_spec label EmptyString); case_decide; congruence.
  - destruct (String.eqb_spec shortLabel EmptyString); case_decide; congruence.
  - destruct (String.eqb_spec longLabel EmptyString); case_decide; congruence.
Qed.

Lemma label_fallback_witness :
  getLabel (Live (sampleClip None [])) = getName (Live (sampleClip None []))
  /\ getShortLabel (Live (sampleClip None [])) = getLabel (Live (sampleClip None []))
  /\ getLongLabel (Live (sampleClip None [])) = getLabel (Live (sampleClip None [])).
Proof.
  pose proof (label_fallback (Live (sampleClip None [])) EmptyString EmptyString
                EmptyString) as H.
  rewrite !decide_True in H by reflexivity.
  apply H; vm_compute; reflexivity.
Defined.

(** The scenario of the specification on a descriptor named [Source]: with
    every label empty the three getters return the name, and once the label
    is [Src] they return [Src]. *)
Example label_scenario :
  let plain := Descriptor (ClipDescriptor_new "Source") in
  let labelled :=
    Descriptor
      {| descriptorBase :=
           {| _properties :=
                Property.setStringProperty kOfxPropLabel "Src" 0
                  (_properties (descriptorBase (ClipDescriptor_new "Source"))) |} |} in
  getLabel plain = Ok "Source"%string
  /\ getShortLabel plain = Ok "Source"%string
  /\ getLongLabel plain = Ok "Source"%string
  /\ getLabel labelled = Ok "Src"%string
  /\ getShortLabel labelled = Ok "Src"%string
  /\ getLongLabel labelled = Ok "Src"%string.
Proof. vm_compute. repeat split; reflexivity. Qed.

(** * Further properties of the code *)

(** ** The get hook on keys it does not know, and on its dimensions *)

Ltac unknown_key H :=
  repeat (apply not_elem_of_cons in H as [? H]);
  repeat match goal with
         | Hne : ?name <> ?k |- context [String.eqb ?name ?k] =>
             rewrite (proj2 (String.eqb_neq name k) Hne)
         end.

(** X1: a key that is not one of a reader's own keys is a value error for
    that reader at every index and every count; the one exception is
    [getStringPropertyN] with count 0, which returns before it looks at the
    key and leaves the buffer as it is. *)
Theorem hook_unknown_key (c : ClipInstance) (name : string) :
  (name ∉ stringKeys ->
   (forall n, getStringProperty c name n = Throw kOfxStatErrValue)
   /\ (forall values count, count <> 0 ->
         getStringPropertyN c name values count = Throw kOfxStatErrValue)
   /\ (forall values, getStringPropertyN c name values 0 = Ok values))
  /\ (name ∉ intKeys ->
      (forall n, getIntProperty c name n = Throw kOfxStatErrValue)
      /\ (forall values n, getIntPropertyN c name values n = Throw kOfxStatErrValue))
  /\ (name ∉ doubleKeys ++ rangeKeys ->
      (forall n, getDoubleProperty c name n = Throw kOfxStatErrValue)
      /\ (forall values n, getDoublePropertyN c name values n = Throw kOfxStatErrValue)).
Proof.
  split; [|split].
  - intros Hout. unfold stringKeys in Hout. split; [|split].
    + intros n. unfold getStringProperty. case_decide; [reflexivity|].
      unknown_key Hout. reflexivity.
    + intros values count Hcount. unfold getStringPropertyN.
      rewrite decide_False by exact Hcount. case_decide; [reflexivity|].
      unknown_key Hout. reflexivity.
    + intros values. reflexivity.
  - intros Hout. unfold intKeys in Hout.
    assert (Hscalar : forall n, getIntProperty c name n = Throw kOfxStatErrValue).
    { intros n. unfold getIntProperty. case_decide; [reflexivity|].
      unknown_key Hout. reflexivity. }
    split; [exact Hscalar|].
    intros values n. unfold getIntPropertyN. case_decide; [reflexivity|].
    rewrite Hscalar. reflexivity.
  - intros Hout. unfold doubleKeys, rangeKeys in Hout. cbn [app] in Hout. split.
    + intros n. unfold getDoubleProperty. unknown_key Hout. reflexivity.
    + intros values n. unfold getDoublePropertyN. unknown_key Hout. reflexivity.
Qed.

Lemma hook_unknown_key_witness :
  getDoubleProperty (sampleClip None []) kOfxImageEffectPropPixelDepth 0
  = Throw kOfxStatErrValue.
Proof.
  refine (proj1 (proj2 (proj2 (hook_unknown_key (sampleClip None [])
                                 kOfxImageEffectPropPixelDepth)) _) 0).
  by_computation.
Defined.

(** X2: for a double key and an index that is not negative, the scalar
    reader returns a value exactly when the index is below the dimension
    [getDimension] reports for the key, and is a value error otherwise. *)
Theorem getDoubleProperty_within_dimension (c : ClipInstance) (name : string) (n : Z) :
  name ∈ doubleKeys ++ rangeKeys ->
  0 <= n ->
  (n < getDimension name -> exists v, getDoubleProperty c name n = Ok v)
  /\ (getDimension name <= n -> getDoubleProperty c name n = Throw kOfxStatErrValue).
Proof.
  intros Hin Hn. unfold doubleKeys, rangeKeys in Hin. cbn [app] in Hin.
  key_cases Hin;
    match goal with
    | |- context [getDimension ?k] =>
        let d := fresh "d" in
        set (d := getDimension k); vm_compute in d; subst d
    end;
    (split; [intros Hlt | intros Hge]);
    unfold getDoubleProperty; simpl;
    try (rewrite decide_True by lia; reflexivity);
    try (assert (n = 0) as -> by lia; eexists; reflexivity);
    (assert (n = 0 \/ n = 1) as [-> | ->] by lia; eexists; reflexivity).
Qed.

Lemma getDoubleProperty_within_dimension_witness :
  exists v, getDoubleProperty (sampleClip None []) kOfxImageEffectPropFrameRange 1 = Ok v.
Proof.
  refine (proj1 (getDoubleProperty_within_dimension (sampleClip None [])
                   kOfxImageEffectPropFrameRange 1 _ _) _).
  - by_computation.
  - lia.
  - vm_compute. reflexivity.
Defined.

(** X12: on a range key [getDoublePropertyN] stores both ends of the range
    for every count up to 2, count 0 and count 1 included, so that a buffer
    of fewer than two elements is overrun whatever the count; above 2 the
    count is a value error. *)
Theorem getDoublePropertyN_range_buffer (c : ClipInstance) (values : list double)
    (n : Z) :
  getDoublePropertyN c kOfxImageEffectPropFrameRange values n
  = (if decide (n > 2) then Throw kOfxStatErrValue
     else if decide (2 <= length values)%nat then
       Ok (<[1%nat := (getFrameRange (virtuals c)).2]>
             (<[0%nat := (getFrameRange (virtuals c)).1]> values))
     else Undefined OutOfBounds)
  /\ getDoublePropertyN c kOfxImageEffectPropUnmappedFrameRange values n
     = (if decide (n > 2) then Throw kOfxStatErrValue
        else if decide (2 <= length values)%nat then
          Ok (<[1%nat := (getUnmappedFrameRange (virtuals c)).2]>
                (<[0%nat := (getUnmappedFrameRange (virtuals c)).1]> values))
        else Undefined OutOfBounds).
Proof.
  split; unfold getDoublePropertyN; simpl;
    (destruct (decide (n > 2)); [reflexivity|]);
    destruct values as [|v0 [|v1 rest]]; reflexivity.
Qed.

(** The components last set are what the hook's string readers return
    for the components key (as a C string by the multi-element reader), and
    setting them changes no other read of the hook and not the mapping of
    components. *)
Theorem setComponents_reads (c : ClipInstance) (s : string) :
  getStringProperty (setComponents s c) kOfxImageEffectPropComponents 0 = Ok s
  /\ (forall old, getStringPropertyN (setComponents s c)
                    kOfxImageEffectPropComponents [old] 1 = Ok [c_str s])
  /\ (forall name n, name <> kOfxImageEffectPropComponents ->
        getStringProperty (setComponents s c) name n = getStringProperty c name n)
  /\ (forall name n,
        getDoubleProperty (setComponents s c) name n = getDoubleProperty c name n)
  /\ (forall name n, getIntProperty (setComponents s c) name n = getIntProperty c name n)
  /\ (forall r, findSupportedComp (setComponents s c) r = findSupportedComp c r).
Proof.
  repeat split; try reflexivity.
  intros name n Hne. unfold getStringProperty.
  rewrite (proj2 (String.eqb_neq name kOfxImageEffectPropComponents) Hne).
  reflexivity.
Qed.

(** ** More on the mapping of components *)

Lemma isSupportedComponent_decide (b : ClipBase) (S : list string) (x : string) :
  getSupportedComponents b = Ok S ->
  isSupportedComponent b x = bool_decide (x ∈ S).
Proof.
  intros HS. case_bool_decide as Hx.
  - apply (isSupportedComponent_elem _ S x HS), Hx.
  - apply (isSupportedComponent_not_elem _ S x HS), Hx.
Qed.

(** X9: with an effect bound, a chromatic request for RGBA that the clip
    does not support is answered with RGB when RGB is supported and else
    with Alpha when Alpha is supported; a chromatic request for Alpha is
    answered with RGBA when RGBA is supported and else with RGB when RGB is
    supported. *)
Theorem findSupportedComp_substitutes (c : ClipInstance) (e : Instance)
    (S : list string) :
  _effectInstance c = Some e ->
  getSupportedComponents (instanceBase c) = Ok S ->
  (isChromaticComponent e kOfxImageComponentRGBA = true ->
   kOfxImageComponentRGBA ∉ S ->
   (kOfxImageComponentRGB ∈ S ->
    findSupportedComp c kOfxImageComponentRGBA = Ok kOfxImageComponentRGB)
   /\ (kOfxImageComponentRGB ∉ S -> kOfxImageComponentAlpha ∈ S ->
       findSupportedComp c kOfxImageComponentRGBA = Ok kOfxImageComponentAlpha))
  /\ (isChromaticComponent e kOfxImageComponentAlpha = true ->
      kOfxImageComponentAlpha ∉ S ->
      (kOfxImageComponentRGBA ∈ S ->
       findSupportedComp c kOfxImageComponentAlpha = Ok kOfxImageComponentRGBA)
      /\ (kOfxImageComponentRGBA ∉ S -> kOfxImageComponentRGB ∈ S ->
          findSupportedComp c kOfxImageComponentAlpha = Ok kOfxImageComponentRGB)).
Proof.
  intros He HS. split; intros Hc Hout.
  - rewrite (findSupportedComp_chromatic c e S _ He HS Hout Hc).
    rewrite decide_True by reflexivity. split.
    + intros Hrgb. rewrite decide_True by exact Hrgb. reflexivity.
    + intros Hrgb Halpha. rewrite decide_False by exact Hrgb.
      rewrite decide_True by exact Halpha. reflexivity.
  - rewrite (findSupportedComp_chromatic c e S _ He HS Hout Hc).
    rewrite decide_False by discriminate. rewrite decide_True by reflexivity. split.
    + intros Hrgba. rewrite decide_True by exact Hrgba. reflexivity.
    + intros Hrgba Hrgb. rewrite decide_False by exact Hrgba.
      rewrite decide_True by exact Hrgb. reflexivity.
Qed.

Lemma findSupportedComp_substitutes_witness :
  findSupportedComp
    (sampleClip (Some sampleEffect) [kOfxImageComponentRGB; kOfxImageComponentAlpha])
    kOfxImageComponentRGBA = Ok kOfxImageComponentRGB.
Proof.
  refine (proj1 (proj1 (findSupportedComp_substitutes
                          (sampleClip (Some sampleEffect)
                             [kOfxImageComponentRGB; kOfxImageComponentAlpha])
                          sampleEffect
                          [kOfxImageComponentRGB; kOfxImageComponentAlpha]
                          eq_refl eq_refl) eq_refl _) _); by_computation.
Defined.

(** X10: the mapping is idempotent: whatever component it returns, it
    returns that component again when asked for it. *)
Theorem findSupportedComp_idempotent (c : ClipInstance) (s out : string) :
  findSupportedComp c s = Ok out -> findSupportedComp c out = Ok out.
Proof.
  intros Hres.
  destruct (isSupportedComponent (instanceBase c) s) eqn:Hs.
  { rewrite (findSupportedComp_supported c s Hs) in Hres.
    injection Hres as <-. apply findSupportedComp_supported, Hs. }
  destruct (_effectInstance c) as [e|] eqn:He;
    [|rewrite (findSupportedComp_no_effect c s He Hs) in Hres; discriminate].
  destruct (isChromaticComponent e s) eqn:Hc;
    [|pose proof Hres as Hres';
      rewrite (findSupportedComp_not_chromatic c e s He Hs Hc) in Hres';
      injection Hres' as <-; exact Hres].
  destruct (getSupportedComponents_cases (instanceBase c)) as [[S HS]|Hnone].
  - pose proof (proj1 (isSupportedComponent_not_elem _ S s HS) Hs) as Hout.
    rewrite (findSupportedComp_chromatic c e S s He HS Hout Hc) in Hres.
    injection Hres as Hres.
    assert (Hfix : out ∈ S \/ (out = kOfxImageComponentNone /\ onlyEntryOrNone S = out)).
    { pose proof (onlyEntryOrNone_cases S) as Honly.
      subst out. repeat case_decide; auto; destruct Honly; auto. }
    destruct Hfix as [Hin | [Hout' Honly]].
    + apply findSupportedComp_supported, (isSupportedComponent_elem _ S out HS), Hin.
    + destruct (decide (out ∈ S)) as [Hin | Hnin];
        [apply findSupportedComp_supported,
           (isSupportedComponent_elem _ S out HS), Hin|].
      destruct (isChromaticComponent e out) eqn:Hcout.
      * rewrite (findSupportedComp_chromatic c e S out He HS Hnin Hcout).
        rewrite Honly. clear Hres Honly. subst out.
        rewrite decide_False by discriminate.
        rewrite decide_False by discriminate. reflexivity.
      * apply (findSupportedComp_not_chromatic c e out He); [|exact Hcout].
        apply (isSupportedComponent_not_elem _ S out HS), Hnin.
  - exfalso. revert Hres. unfold findSupportedComp. rewrite Hs, He, Hc, Hnone.
    rewrite !(isSupportedComponent_no_list _ _ Hnone). simpl.
    repeat destruct (String.eqb _ _); discriminate.
Qed.

Lemma findSupportedComp_idempotent_witness :
  findSupportedComp (sampleClip (Some sampleEffect) [kOfxImageComponentAlpha])
    kOfxImageComponentAlpha = Ok kOfxImageComponentAlpha.
Proof.
  refine (findSupportedComp_idempotent
            (sampleClip (Some sampleEffect) [kOfxImageComponentAlpha])
            kOfxImageComponentRGBA kOfxImageComponentAlpha _).
  vm_compute. reflexivity.
Defined.

Lemma onlyEntryOrNone_Permutation (S S' : list string) :
  S ≡ₚ S' -> onlyEntryOrNone S = onlyEntryOrNone S'.
Proof.
  intros Hp. pose proof (Permutation_length Hp) as Hlen.
  destruct S as [|x [|y r]], S' as [|x' [|y' r']]; simpl in Hlen; try discriminate;
    try reflexivity.
  apply Permutation_singleton_inj in Hp. subst. reflexivity.
Qed.

(** X11: the mapping does not depend on the order of the supported list:
    two clips whose lists are permutations of each other, bound to effects
    that agree on whether the request is chromatic, map the request to the
    same component. *)
Theorem findSupportedComp_order_independent (c c' : ClipInstance) (e e' : Instance)
    (S S' : list string) (r : string) :
  _effectInstance c = Some e ->
  _effectInstance c' = Some e' ->
  getSupportedComponents (instanceBase c) = Ok S ->
  getSupportedComponents (instanceBase c') = Ok S' ->
  S ≡ₚ S' ->
  isChromaticComponent e' r = isChromaticComponent e r ->
  findSupportedComp c' r = findSupportedComp c r.
Proof.
  intros He He' HS HS' Hp Hsame.
  assert (Hmem : forall x, x ∈ S <-> x ∈ S') by (intros x; rewrite Hp; reflexivity).
  destruct (decide (r ∈ S)) as [Hin|Hout].
  - rewrite !findSupportedComp_supported; [reflexivity | |].
    + apply (isSupportedComponent_elem _ S r HS), Hin.
    + apply (isSupportedComponent_elem _ S' r HS'), Hmem, Hin.
  - assert (Hout' : r ∉ S') by (rewrite <- Hmem; exact Hout).
    destruct (isChromaticComponent e r) eqn:Hc.
    + rewrite (findSupportedComp_chromatic c e S r He HS Hout Hc).
      rewrite (findSupportedComp_chromatic c' e' S' r He' HS' Hout' Hsame).
      rewrite (onlyEntryOrNone_Permutation S S' Hp).
      f_equal.
      rewrite !(decide_ext (kOfxImageComponentRGB ∈ S') (kOfxImageComponentRGB ∈ S))
        by (symmetry; apply Hmem).
      rewrite !(decide_ext (kOfxImageComponentAlpha ∈ S')
                  (kOfxImageComponentAlpha ∈ S)) by (symmetry; apply Hmem).
      rewrite !(decide_ext (kOfxImageComponentRGBA ∈ S') (kOfxImageComponentRGBA ∈ S))
        by (symmetry; apply Hmem).
      reflexivity.
    + rewrite (findSupportedComp_not_chromatic c e r He); [|
        apply (isSupportedComponent_not_elem _ S r HS), Hout | exact Hc].
      apply (findSupportedComp_not_chromatic c' e' r He'); [|exact Hsame].
      apply (isSupportedComponent_not_elem _ S' r HS'), Hout'.
Qed.

Lemma findSupportedComp_order_independent_witness :
  findSupportedComp
    (sampleClip (Some sampleEffect) [kOfxImageComponentAlpha; kOfxImageComponentRGB])
    kOfxImageComponentRGBA
  = findSupportedComp
      (sampleClip (Some sampleEffect) [kOfxImageComponentRGB; kOfxImageComponentAlpha])
      kOfxImageComponentRGBA.
Proof.
  refine (findSupportedComp_order_independent
            (sampleClip (Some sampleEffect)
               [kOfxImageComponentRGB; kOfxImageComponentAlpha])
            (sampleClip (Some sampleEffect)
               [kOfxImageComponentAlpha; kOfxImageComponentRGB])
            sampleEffect sampleEffect
            [kOfxImageComponentRGB; kOfxImageComponentAlpha]
            [kOfxImageComponentAlpha; kOfxImageComponentRGB]
            kOfxImageComponentRGBA eq_refl eq_refl _ _ _ eq_refl).
  - vm_compute. reflexivity.
  - vm_compute. reflexivity.
  - apply Permutation_swap.
Defined.

(** ** The bag of a cloned instance, key by key *)

Lemma createProperty_lookup_ne (spec : Property.PropSpec)
    (s : gmap string Property.Property) (k : string) :
  k <> Property.name spec -> Property.createProperty spec s !! k = s !! k.
Proof.
  intros Hne. unfold Property.createProperty.
  destruct (s !! Property.name spec); [reflexivity|].
  destruct (Property.initialValues spec); [|reflexivity].
  apply lookup_insert_ne. congruence.
Qed.

Lemma addProperties_lookup_ne (specs : list Property.PropSpec)
    (s : gmap string Property.Property) (k : string) :
  k ∉ Property.name <$> specs -> Property.addProperties specs s !! k = s !! k.
Proof.
  revert s. induction specs as [|spec specs IH]; intros s Hout; [reflexivity|].
  rewrite fmap_cons in Hout. apply not_elem_of_cons in Hout as [Hne Hout].
  change (Property.addProperties (spec :: specs) s)
    with (Property.addProperties specs (Property.createProperty spec s)).
  rewrite (IH _ Hout). apply createProperty_lookup_ne, Hne.
Qed.

Lemma createProperty_fresh (spec : Property.PropSpec)
    (s : gmap string Property.Property) (v : Property.Values) :
  s !! Property.name spec = None ->
  Property.initialValues spec = Some v ->
  Property.createProperty spec s !! Property.name spec = Some (declared spec v).
Proof.
  intros Hnone Hv. unfold Property.createProperty. rewrite Hnone, Hv.
  apply lookup_insert_eq.
Qed.

(** A row of a table without duplicate names enters a bag that lacks its
    key with the arity, flag and default the row gives. *)
Lemma addProperties_fresh (specs : list Property.PropSpec)
    (s : gmap string Property.Property) (spec : Property.PropSpec)
    (v : Property.Values) :
  NoDup (Property.name <$> specs) ->
  spec ∈ specs ->
  s !! Property.name spec = None ->
  Property.initialValues spec = Some v ->
  Property.addProperties specs s !! Property.name spec = Some (declared spec v).
Proof.
  revert s. induction specs as [|first specs IH]; intros s Hnd Hin Hnone Hv.
  - apply elem_of_nil in Hin. destruct Hin.
  - rewrite fmap_cons in Hnd. apply NoDup_cons in Hnd as [Hfirst Hnd].
    change (Property.addProperties (first :: specs) s)
      with (Property.addProperties specs (Property.createProperty first s)).
    apply elem_of_cons in Hin as [->|Hin].
    + apply addProperties_keeps, createProperty_fresh; assumption.
    + apply (IH _ Hnd Hin); [|exact Hv].
      rewrite createProperty_lookup_ne; [exact Hnone|].
      intros Heq. apply Hfirst. rewrite <- Heq.
      apply list_elem_of_fmap. exists spec. split; [reflexivity | exact Hin].
Qed.

Lemma hookedBy_outside (specs : list Property.PropSpec) (k : string) :
  k ∉ Property.name <$> specs -> hookedBy specs k = false.
Proof.
  induction specs as [|spec specs IH]; intros Hout; [reflexivity|].
  rewrite fmap_cons in Hout. apply not_elem_of_cons in Hout as [Hne Hout].
  cbn [hookedBy existsb]. fold (hookedBy specs k). rewrite (IH Hout).
  rewrite (proj2 (String.eqb_neq (Property.name spec) k)) by congruence.
  rewrite andb_false_r. reflexivity.
Qed.

Lemma hookedBy_elem (specs : list Property.PropSpec) (spec : Property.PropSpec) :
  spec ∈ specs -> hookable spec = true -> hookedBy specs (Property.name spec) = true.
Proof.
  induction specs as [|first specs IH]; intros Hin Hh.
  - apply elem_of_nil in Hin. destruct Hin.
  - cbn [hookedBy existsb]. fold (hookedBy specs (Property.name spec)).
    apply elem_of_cons in Hin as [<-|Hin].
    + rewrite Hh, String.eqb_refl. reflexivity.
    + rewrite (IH Hin Hh). apply orb_true_r.
Qed.

(** The loop of the constructor installs a hook on the keys it names and
    leaves every other property as it is. *)
Lemma hooks_lookup_exact (specs : list Property.PropSpec)
    (s : gmap string Property.Property) (k : string) :
  foldl (fun acc spec =>
           match Property.type spec with
           | Property.eDouble | Property.eString | Property.eInt =>
               Property.setGetHook (Property.name spec) acc
           | _ => acc
           end) s specs !! k
  = if hookedBy specs k then Property.installGetHook <$> s !! k else s !! k.
Proof.
  revert s. induction specs as [|spec specs IH]; intros s; [reflexivity|].
  cbn [foldl hookedBy existsb]. fold (hookedBy specs k). rewrite IH.
  unfold hookable.
  destruct (Property.type spec); cbn [andb orb]; try reflexivity;
    (destruct (String.eqb_spec (Property.name spec) k) as [->|Hne]; cbn [orb];
     [unfold Property.setGetHook; rewrite lookup_alter_eq;
      destruct (s !! k), (hookedBy specs k); reflexivity
     |unfold Property.setGetHook; rewrite lookup_alter_ne by exact Hne;
      reflexivity]).
Qed.

Lemma instanceStuffs_names_NoDup : NoDup (Property.name <$> clipInstanceStuffs).
Proof. by_computation. Qed.

Lemma instanceStuffs_hookable (spec : Property.PropSpec) :
  spec ∈ clipInstanceStuffs ->
  hookable spec = true
  /\ exists v, Property.initialValues spec = Some v
               /\ Property.getType (declared spec v) = Property.type spec.
Proof.
  intros Hin. key_cases Hin; (split; [reflexivity|]); eexists; split; reflexivity.
Qed.

(** The bag of a new instance at a key outside the instance schema. *)
Lemma ClipInstance_new_lookup_other (effect : option Instance) (D : ClipDescriptor)
    (isOutput : bool) (v : Virtuals) (k : string) :
  k ∉ Property.name <$> clipInstanceStuffs ->
  _properties (instanceBase (ClipInstance_new effect D isOutput v)) !! k
  = Property.setPluginReadOnly false <$> _properties (descriptorBase D) !! k.
Proof.
  intros Hout. unfold ClipInstance_new. cbn [instanceBase _properties].
  rewrite hooks_lookup_exact, (hookedBy_outside _ _ Hout).
  rewrite (addProperties_lookup_ne _ _ _ Hout).
  unfold ClipBase_copy. cbn [_properties]. apply lookup_fmap.
Qed.

(** The bag of a new instance at a key of the instance schema that the
    descriptor did not have. *)
Lemma ClipInstance_new_lookup_schema (effect : option Instance) (D : ClipDescriptor)
    (isOutput : bool) (v : Virtuals) (spec : Property.PropSpec)
    (v0 : Property.Values) :
  spec ∈ clipInstanceStuffs ->
  Property.initialValues spec = Some v0 ->
  _properties (descriptorBase D) !! Property.name spec = None ->
  _properties (instanceBase (ClipInstance_new effect D isOutput v))
    !! Property.name spec
  = Some (Property.installGetHook (declared spec v0)).
Proof.
  intros Hin Hv Hnone. unfold ClipInstance_new. cbn [instanceBase _properties].
  rewrite hooks_lookup_exact.
  rewrite (hookedBy_elem _ _ Hin (proj1 (instanceStuffs_hookable spec Hin))).
  rewrite (addProperties_fresh clipInstanceStuffs _ spec v0
             instanceStuffs_names_NoDup Hin); [reflexivity | | exact Hv].
  unfold ClipBase_copy. cbn [_properties]. rewrite lookup_fmap, Hnone. reflexivity.
Qed.

(** X4: the bag of the instance cloned from a descriptor [D] that has none
    of the instance schema's keys, key by key: a key of the instance schema
    holds a property of the row's type, arity and plug-in read-only flag with
    the get hook installed; every other key holds what [D] holds, the plug-in
    read-only flag cleared and nothing else changed. *)
Theorem clone_bag_exact (effect : option Instance) (D : ClipDescriptor)
    (isOutput : bool) (v : Virtuals) :
  (forall spec, spec ∈ clipInstanceStuffs ->
     _properties (descriptorBase D) !! Property.name spec = None) ->
  (forall spec, spec ∈ clipInstanceStuffs ->
     exists p,
       _properties (instanceBase (ClipInstance_new effect D isOutput v))
         !! Property.name spec = Some p
       /\ Property._getHook p = true
       /\ Property.getType p = Property.type spec
       /\ Property._dimension p = Property.dimension spec
       /\ Property._pluginReadOnly p = Property.readonly spec)
  /\ (forall k, k ∉ Property.name <$> clipInstanceStuffs ->
        _properties (instanceBase (ClipInstance_new effect D isOutput v)) !! k
        = Property.setPluginReadOnly false <$> _properties (descriptorBase D) !! k).
Proof.
  intros Hfresh. split.
  - intros spec Hin.
    destruct (instanceStuffs_hookable spec Hin) as (_ & v0 & Hv & Hty).
    eexists. split;
      [apply (ClipInstance_new_lookup_schema effect D isOutput v spec v0 Hin Hv
                (Hfresh spec Hin))|].
    repeat split. exact Hty.
  - intros k Hout. apply ClipInstance_new_lookup_other, Hout.
Qed.

Lemma sample_descriptor_fresh (name : string) (spec : Property.PropSpec) :
  spec ∈ clipInstanceStuffs ->
  _properties (descriptorBase (ClipDescriptor_new name)) !! Property.name spec = None.
Proof. intros Hin. key_cases Hin; vm_compute; reflexivity. Qed.

Lemma clone_bag_exact_witness :
  _properties
    (instanceBase (ClipInstance_new None (ClipDescriptor_new "Source") false
                     sampleVirtuals)) !! kOfxPropName
  = Property.setPluginReadOnly false
      <$> _properties (descriptorBase (ClipDescriptor_new "Source")) !! kOfxPropName.
Proof.
  refine (proj2 (clone_bag_exact None (ClipDescriptor_new "Source") false
                   sampleVirtuals (sample_descriptor_fresh "Source"))
            kOfxPropName _).
  by_computation.
Defined.

(** ** Reads of an instance's bag *)

Lemma routed_string (c : ClipInstance) (k : string) (p : Property.Property) (n : Z) :
  _properties (instanceBase c) !! k = Some p ->
  Property.getType p = Property.eString ->
  Property._getHook p = true ->
  Property.getStringProperty (hookOf (Live c)) (getProps (Live c)) k n
  = getStringProperty c k n.
Proof.
  intros Hk Hty Hhook. unfold Property.getStringProperty. cbn [getProps hookOf].
  rewrite Hk. unfold Property.getType in Hty.
  destruct (Property._value p); try discriminate. rewrite Hhook. reflexivity.
Qed.

Lemma routed_double (c : ClipInstance) (k : string) (p : Property.Property) (n : Z) :
  _properties (instanceBase c) !! k = Some p ->
  Property.getType p = Property.eDouble ->
  Property._getHook p = true ->
  Property.getDoubleProperty (hookOf (Live c)) (getProps (Live c)) k n
  = getDoubleProperty c k n.
Proof.
  intros Hk Hty Hhook. unfold Property.getDoubleProperty. cbn [getProps hookOf].
  rewrite Hk. unfold Property.getType in Hty.
  destruct (Property._value p); try discriminate. rewrite Hhook. reflexivity.
Qed.

Lemma routed_int (c : ClipInstance) (k : string) (p : Property.Property) (n : Z) :
  _properties (instanceBase c) !! k = Some p ->
  Property.getType p = Property.eInt ->
  Property._getHook p = true ->
  Property.getIntProperty (hookOf (Live c)) (getProps (Live c)) k n
  = getIntProperty c k n.
Proof.
  intros Hk Hty Hhook. unfold Property.getIntProperty. cbn [getProps hookOf].
  rewrite Hk. unfold Property.getType in Hty.
  destruct (Property._value p); try discriminate. rewrite Hhook. reflexivity.
Qed.

(** Every read of a key of the instance schema goes to the hook. *)
Lemma instance_reads_routed (effect : option Instance) (D : ClipDescriptor)
    (isOutput : bool) (v : Virtuals) (comps : string) (spec : Property.PropSpec)
    (n : Z) :
  (forall spec, spec ∈ clipInstanceStuffs ->
     _properties (descriptorBase D) !! Property.name spec = None) ->
  spec ∈ clipInstanceStuffs ->
  match Property.type spec with
  | Property.eString =>
      Property.getStringProperty
        (hookOf (Live (setComponents comps (ClipInstance_new effect D isOutput v))))
        (getProps (Live (setComponents comps (ClipInstance_new effect D isOutput v))))
        (Property.name spec) n
      = getStringProperty (setComponents comps (ClipInstance_new effect D isOutput v))
          (Property.name spec) n
  | Property.eDouble =>
      Property.getDoubleProperty
        (hookOf (Live (setComponents comps (ClipInstance_new effect D isOutput v))))
        (getProps (Live (setComponents comps (ClipInstance_new effect D isOutput v))))
        (Property.name spec) n
      = getDoubleProperty (setComponents comps (ClipInstance_new effect D isOutput v))
          (Property.name spec) n
  | Property.eInt =>
      Property.getIntProperty
        (hookOf (Live (setComponents comps (ClipInstance_new effect D isOutput v))))
        (getProps (Live (setComponents comps (ClipInstance_new effect D isOutput v))))
        (Property.name spec) n
      = getIntProperty (setComponents comps (ClipInstance_new effect D isOutput v))
          (Property.name spec) n
  | _ => True
  end.
Proof.
  intros Hfresh Hin.
  destruct (instanceStuffs_hookable spec Hin) as (_ & v0 & Hv & Hty).
  pose proof (ClipInstance_new_lookup_schema effect D isOutput v spec v0 Hin Hv
                (Hfresh spec Hin)) as Hk.
  remember (ClipInstance_new effect D isOutput v) as I0 eqn:HI0. clear HI0.
  assert (Hk' : _properties (instanceBase (setComponents comps I0))
                  !! Property.name spec
                = Some (Property.installGetHook (declared spec v0))) by exact Hk.
  assert (Hhook : Property._getHook (Property.installGetHook (declared spec v0)) = true)
    by reflexivity.
  assert (Hty' : Property.getType (Property.installGetHook (declared spec v0))
                 = Property.type spec) by exact Hty.
  clear Hk Hty. remember (Property.installGetHook (declared spec v0)) as p eqn:Hp.
  clear Hp. remember (setComponents comps I0) as c eqn:Hc. clear Hc.
  destruct (Property.type spec) eqn:Htype; try exact I.
  - exact (routed_int c _ p n Hk' Hty' Hhook).
  - exact (routed_double c _ p n Hk' Hty' Hhook).
  - exact (routed_string c _ p n Hk' Hty' Hhook).
Qed.

(** X5: in an instance cloned from a descriptor that has none of the
    instance schema's keys, a read of the bag at a key of the instance schema
    is answered by the instance's own reader at every index, never from the
    stored default; so at index 0 (and 1 for the ranges) the bag yields what
    the accessors return and the components last set. *)
Theorem bag_reads_reach_accessors (effect : option Instance) (D : ClipDescriptor)
    (isOutput : bool) (v : Virtuals) (comps : string) :
  (forall spec, spec ∈ clipInstanceStuffs ->
     _properties (descriptorBase D) !! Property.name spec = None) ->
  let I := setComponents comps (ClipInstance_new effect D isOutput v) in
  let readString := Property.getStringProperty (hookOf (Live I)) (getProps (Live I)) in
  let readDouble := Property.getDoubleProperty (hookOf (Live I)) (getProps (Live I)) in
  let readInt := Property.getIntProperty (hookOf (Live I)) (getProps (Live I)) in
  (forall name n, name ∈ stringKeys -> readString name n = getStringProperty I name n)
  /\ (forall name n, name ∈ doubleKeys ++ rangeKeys ->
        readDouble name n = getDoubleProperty I name n)
  /\ (forall name n, name ∈ intKeys -> readInt name n = getIntProperty I name n)
  /\ readString kOfxImageEffectPropPixelDepth 0 = Ok (getPixelDepth v)
  /\ readString kOfxImageEffectPropComponents 0 = Ok comps
  /\ readString kOfxImageClipPropUnmappedPixelDepth 0 = Ok (getUnmappedBitDepth v)
  /\ readString kOfxImageClipPropUnmappedComponents 0 = Ok (getUnmappedComponents v)
  /\ readString kOfxImageEffectPropPreMultiplication 0 = Ok (getPremult v)
  /\ readString kOfxImageClipPropFieldOrder 0 = Ok (getFieldOrder v)
  /\ readDouble kOfxImagePropPixelAspectRatio 0 = Ok (getAspectRatio v)
  /\ readDouble kOfxImageEffectPropFrameRate 0 = Ok (getFrameRate v)
  /\ readDouble kOfxImageEffectPropUnmappedFrameRate 0 = Ok (getUnmappedFrameRate v)
  /\ readDouble kOfxImageEffectPropFrameRange 0 = Ok (getFrameRange v).1
  /\ readDouble kOfxImageEffectPropFrameRange 1 = Ok (getFrameRange v).2
  /\ readDouble kOfxImageEffectPropUnmappedFrameRange 0 = Ok (getUnmappedFrameRange v).1
  /\ readDouble kOfxImageEffectPropUnmappedFrameRange 1 = Ok (getUnmappedFrameRange v).2
  /\ readInt kOfxImageClipPropConnected 0 = Ok (int_of_bool (getConnected v))
  /\ readInt kOfxImageClipPropContinuousSamples 0
     = Ok (int_of_bool (getContinuousSamples v)).
Proof.
  intros Hfresh I readString readDouble readInt.
  pose proof (fun i spec n (Hi : clipInstanceStuffs !! i = Some spec) =>
                instance_reads_routed effect D isOutput v comps spec n Hfresh
                  (list_elem_of_lookup_2 _ i spec Hi)) as Hroute.
  assert (HS : forall name n, name ∈ stringKeys ->
                 readString name n = getStringProperty I name n).
  { intros name n Hin. key_cases Hin.
    - exact (Hroute 0%nat _ n eq_refl).
    - exact (Hroute 1%nat _ n eq_refl).
    - exact (Hroute 3%nat _ n eq_refl).
    - exact (Hroute 2%nat _ n eq_refl).
    - exact (Hroute 4%nat _ n eq_refl).
    - exact (Hroute 8%nat _ n eq_refl). }
  assert (HD : forall name n, name ∈ doubleKeys ++ rangeKeys ->
                 readDouble name n = getDoubleProperty I name n).
  { intros name n Hin. unfold doubleKeys, rangeKeys in Hin. cbn [app] in Hin.
    key_cases Hin.
    - exact (Hroute 5%nat _ n eq_refl).
    - exact (Hroute 6%nat _ n eq_refl).
    - exact (Hroute 11%nat _ n eq_refl).
    - exact (Hroute 7%nat _ n eq_refl).
    - exact (Hroute 10%nat _ n eq_refl). }
  assert (HI : forall name n, name ∈ intKeys ->
                 readInt name n = getIntProperty I name n).
  { intros name n Hin. key_cases Hin.
    - exact (Hroute 9%nat _ n eq_refl).
    - exact (Hroute 12%nat _ n eq_refl). }
  split; [exact HS|]. split; [exact HD|]. split; [exact HI|].
  repeat split;
    first [ rewrite HS by by_computation; reflexivity
          | rewrite HD by by_computation; reflexivity
          | rewrite HI by by_computation; reflexivity ].
Qed.

Lemma bag_reads_reach_accessors_witness :
  Property.getStringProperty
    (hookOf (Live (setComponents kOfxImageComponentRGBA
                     (ClipInstance_new None (ClipDescriptor_new "Source") false
                        sampleVirtuals))))
    (getProps (Live (setComponents kOfxImageComponentRGBA
                       (ClipInstance_new None (ClipDescriptor_new "Source") false
                          sampleVirtuals))))
    kOfxImageEffectPropComponents 0
  = Ok kOfxImageComponentRGBA.
Proof.
  pose proof (bag_reads_reach_accessors None (ClipDescriptor_new "Source") false
                sampleVirtuals kOfxImageComponentRGBA
                (sample_descriptor_fresh "Source")) as H.
  cbv zeta in H. apply H.
Defined.

(** ** What cloning keeps *)

Lemma clone_read_string (effect : option Instance) (D : ClipDescriptor)
    (isOutput : bool) (v : Virtuals) (k : string) (n : Z) :
  k ∉ Property.name <$> clipInstanceStuffs ->
  (forall p, _properties (descriptorBase D) !! k = Some p ->
             Property._getHook p = false) ->
  Property.getStringProperty
    (hookOf (Live (ClipInstance_new effect D isOutput v)))
    (getProps (Live (ClipInstance_new effect D isOutput v))) k n
  = Property.getStringProperty (hookOf (Descriptor D)) (getProps (Descriptor D)) k n.
Proof.
  intros Hout Hhook. unfold Property.getStringProperty. cbn [getProps hookOf].
  rewrite (ClipInstance_new_lookup_other effect D isOutput v k Hout).
  destruct (_properties (descriptorBase D) !! k) as [p|] eqn:Hk; [|reflexivity].
  cbn [fmap option_fmap option_map Property.setPluginReadOnly Property._value
       Property._getHook].
  rewrite (Hhook p eq_refl). destruct (Property._value p); reflexivity.
Qed.

Lemma clone_read_int (effect : option Instance) (D : ClipDescriptor)
    (isOutput : bool) (v : Virtuals) (k : string) (n : Z) :
  k ∉ Property.name <$> clipInstanceStuffs ->
  (forall p, _properties (descriptorBase D) !! k = Some p ->
             Property._getHook p = false) ->
  Property.getIntProperty
    (hookOf (Live (ClipInstance_new effect D isOutput v)))
    (getProps (Live (ClipInstance_new effect D isOutput v))) k n
  = Property.getIntProperty (hookOf (Descriptor D)) (getProps (Descriptor D)) k n.
Proof.
  intros Hout Hhook. unfold Property.getIntProperty. cbn [getProps hookOf].
  rewrite (ClipInstance_new_lookup_other effect D isOutput v k Hout).
  destruct (_properties (descriptorBase D) !! k) as [p|] eqn:Hk; [|reflexivity].
  cbn [fmap option_fmap option_map Property.setPluginReadOnly Property._value
       Property._getHook].
  rewrite (Hhook p eq_refl). destruct (Property._value p); reflexivity.
Qed.

Lemma clone_fetch_supported (effect : option Instance) (D : ClipDescriptor)
    (isOutput : bool) (v : Virtuals) :
  Property.fetchStringProperty kOfxImageEffectPropSupportedComponents
    (_properties (instanceBase (ClipInstance_new effect D isOutput v)))
  = Property.fetchStringProperty kOfxImageEffectPropSupportedComponents
      (_properties (descriptorBase D)).
Proof.
  unfold Property.fetchStringProperty.
  rewrite (ClipInstance_new_lookup_other effect D isOutput v
             kOfxImageEffectPropSupportedComponents) by by_computation.
  destruct (_properties (descriptorBase D) !! kOfxImageEffectPropSupportedComponents);
    reflexivity.
Qed.

(** X6: cloning a descriptor that has no get hook of its own keeps what
    the members of [ClipBase] return: the instance has the descriptor's name,
    labels, flags, field extraction and supported components. *)
Theorem clone_keeps_static_getters (effect : option Instance) (D : ClipDescriptor)
    (isOutput : bool) (v : Virtuals) :
  (forall k p, _properties (descriptorBase D) !! k = Some p ->
               Property._getHook p = false) ->
  getName (Live (ClipInstance_new effect D isOutput v)) = getName (Descriptor D)
  /\ getLabel (Live (ClipInstance_new effect D isOutput v)) = getLabel (Descriptor D)
  /\ getShortLabel (Live (ClipInstance_new effect D isOutput v))
     = getShortLabel (Descriptor D)
  /\ getLongLabel (Live (ClipInstance_new effect D isOutput v))
     = getLongLabel (Descriptor D)
  /\ temporalAccess (Live (ClipInstance_new effect D isOutput v))
     = temporalAccess (Descriptor D)
  /\ isOptional (Live (ClipInstance_new effect D isOutput v)) = isOptional (Descriptor D)
  /\ isMask (Live (ClipInstance_new effect D isOutput v)) = isMask (Descriptor D)
  /\ getFieldExtraction (Live (ClipInstance_new effect D isOutput v))
     = getFieldExtraction (Descriptor D)
  /\ supportsTiles (Live (ClipInstance_new effect D isOutput v))
     = supportsTiles (Descriptor D)
  /\ getSupportedComponents (instanceBase (ClipInstance_new effect D isOutput v))
     = getSupportedComponents (descriptorBase D)
  /\ (forall comp,
        isSupportedComponent (instanceBase (ClipInstance_new effect D isOutput v)) comp
        = isSupportedComponent (descriptorBase D) comp).
Proof.
  intros Hhook.
  assert (HS : forall k n, k ∉ Property.name <$> clipInstanceStuffs ->
            Property.getStringProperty
              (hookOf (Live (ClipInstance_new effect D isOutput v)))
              (getProps (Live (ClipInstance_new effect D isOutput v))) k n
            = Property.getStringProperty (hookOf (Descriptor D))
                (getProps (Descriptor D)) k n).
  { intros k n Hout. apply clone_read_string; [exact Hout | apply Hhook]. }
  assert (HI : forall k n, k ∉ Property.name <$> clipInstanceStuffs ->
            Property.getIntProperty
              (hookOf (Live (ClipInstance_new effect D isOutput v)))
              (getProps (Live (ClipInstance_new effect D isOutput v))) k n
            = Property.getIntProperty (hookOf (Descriptor D))
                (getProps (Descriptor D)) k n).
  { intros k n Hout. apply clone_read_int; [exact Hout | apply Hhook]. }
  assert (Hname : getName (Live (ClipInstance_new effect D isOutput v))
                  = getName (Descriptor D)).
  { unfold getName. apply HS. by_computation. }
  assert (Hlabel : getLabel (Live (ClipInstance_new effect D isOutput v))
                   = getLabel (Descriptor D)).
  { unfold getLabel. rewrite HS by by_computation. rewrite Hname. reflexivity. }
  split; [exact Hname|]. split; [exact Hlabel|].
  split; [unfold getShortLabel; rewrite HS by by_computation; rewrite Hlabel;
          reflexivity|].
  split; [unfold getLongLabel; rewrite HS by by_computation; rewrite Hlabel;
          reflexivity|].
  split; [unfold temporalAccess; rewrite HI by by_computation; reflexivity|].
  split; [unfold isOptional; rewrite HI by by_computation; reflexivity|].
  split; [unfold isMask; rewrite HI by by_computation; reflexivity|].
  split; [unfold getFieldExtraction; apply HS; by_computation|].
  split; [unfold supportsTiles; rewrite HI by by_computation; reflexivity|].
  split.
  - unfold getSupportedComponents. rewrite clone_fetch_supported. reflexivity.
  - intros comp. unfold isSupportedComponent, Property.findStringPropValueIndex.
    rewrite clone_fetch_supported. reflexivity.
Qed.

(** A descriptor fresh from its constructor has no get hook. *)
Lemma descriptor_new_unhooked (name k : string) (p : Property.Property) :
  _properties (descriptorBase (ClipDescriptor_new name)) !! k = Some p ->
  Property._getHook p = false.
Proof.
  intros Hk.
  assert (Hall : map_Forall (fun _ q => Property._getHook q = false)
                   (_properties (descriptorBase (ClipDescriptor_new name))))
    by by_computation.
  exact (Hall k p Hk).
Qed.

Lemma clone_keeps_static_getters_witness :
  getName (Live (ClipInstance_new None (ClipDescriptor_new "Source") false
                   sampleVirtuals))
  = getName (Descriptor (ClipDescriptor_new "Source")).
Proof.
  exact (proj1 (clone_keeps_static_getters None (ClipDescriptor_new "Source") false
                  sampleVirtuals (descriptor_new_unhooked "Source"))).
Defined.

(** X7: a descriptor fresh from its constructor returns the name it was
    given, whole, as its name and as each of its three labels; it is not
    optional, not a mask, has no temporal access, supports tiles, extracts
    fields doubled and supports no component yet. *)
Theorem descriptor_new_getters (name : string) :
  getName (Descriptor (ClipDescriptor_new name)) = Ok name
  /\ getLabel (Descriptor (ClipDescriptor_new name)) = Ok name
  /\ getShortLabel (Descriptor (ClipDescriptor_new name)) = Ok name
  /\ getLongLabel (Descriptor (ClipDescriptor_new name)) = Ok name
  /\ temporalAccess (Descriptor (ClipDescriptor_new name)) = Ok false
  /\ isOptional (Descriptor (ClipDescriptor_new name)) = Ok false
  /\ isMask (Descriptor (ClipDescriptor_new name)) = Ok false
  /\ supportsTiles (Descriptor (ClipDescriptor_new name)) = Ok true
  /\ getFieldExtraction (Descriptor (ClipDescriptor_new name)) = Ok kOfxImageFieldDoubled
  /\ getSupportedComponents (descriptorBase (ClipDescriptor_new name)) = Ok []
  /\ (forall comp,
        isSupportedComponent (descriptorBase (ClipDescriptor_new name)) comp = false).
Proof.
  repeat split; vm_compute; reflexivity.
Qed.

(** X8: on a clip whose name is not empty, no label getter returns the
    empty string. *)
Theorem labels_not_empty (c : Clip) (name : string) :
  getName c = Ok name ->
  name <> EmptyString ->
  (forall s, getLabel c = Ok s -> s <> EmptyString)
  /\ (forall s, getShortLabel c = Ok s -> s <> EmptyString)
  /\ (forall s, getLongLabel c = Ok s -> s <> EmptyString).
Proof.
  intros Hname Hne.
  assert (HL : forall s, getLabel c = Ok s -> s <> EmptyString).
  { intros s. unfold getLabel. rewrite Hname.
    destruct (Property.getStringProperty _ _ kOfxPropLabel 0) as [l| |];
      cbn [bind]; try discriminate.
    destruct (String.eqb_spec l EmptyString); intros [= <-]; assumption. }
  split; [exact HL|]. split; intros s.
  - unfold getShortLabel.
    destruct (Property.getStringProperty _ _ kOfxPropShortLabel 0) as [l| |];
      cbn [bind]; try discriminate.
    destruct (String.eqb_spec l EmptyString); [apply HL|].
    intros [= <-]. assumption.
  - unfold getLongLabel.
    destruct (Property.getStringProperty _ _ kOfxPropLongLabel 0) as [l| |];
      cbn [bind]; try discriminate.
    destruct (String.eqb_spec l EmptyString); [apply HL|].
    intros [= <-]. assumption.
Qed.

Lemma labels_not_empty_witness :
  getShortLabel (Descriptor (ClipDescriptor_new "Source")) = Ok "Source"%string
  /\ "Source"%string <> EmptyString.
Proof.
  assert (Hshort : getShortLabel (Descriptor (ClipDescriptor_new "Source"))
                   = Ok "Source"%string) by (vm_compute; reflexivity).
  split; [exact Hshort|].
  refine (proj1 (proj2 (labels_not_empty (Descriptor (ClipDescriptor_new "Source"))
                          "Source" _ _)) "Source"%string Hshort).
  - vm_compute. reflexivity.
  - discriminate.
Defined.

(** ** The geometry of an image, read back *)

Lemma rectOfInts_rect (r : OfxRectI) :
  rectOfInts [OfxCore.x1 r; OfxCore.y1 r; OfxCore.x2 r; OfxCore.y2 r] = r.
Proof. destruct r. reflexivity. Qed.

(** X13: [getBounds] and [getROD] return the rectangles the geometry
    constructor was given, and the zero rectangle on an image built from the
    clip alone. *)
Theorem geometry_round_trip (instance : ClipInstance)
    (depth comps premult : string) (aspect : double) :
  clipYields instance depth comps premult aspect ->
  (forall renderScaleX renderScaleY bounds rod rowBytes field uniqueIdentifier,
     exists b,
       ImageBase_ofClipGeometry instance renderScaleX renderScaleY bounds rod
         rowBytes field uniqueIdentifier = Ok b
       /\ getBounds (built b) = Ok bounds
       /\ getROD (built b) = Ok rod)
  /\ (exists b,
        ImageBase_ofClip instance = Ok b
        /\ getBounds (built b)
           = Ok {| OfxCore.x1 := 0; OfxCore.y1 := 0; OfxCore.x2 := 0; OfxCore.y2 := 0 |}
        /\ getROD (built b)
           = Ok {| OfxCore.x1 := 0; OfxCore.y1 := 0; OfxCore.x2 := 0; OfxCore.y2 := 0 |}).
Proof.
  intros Hy. split.
  - intros. unfold ImageBase_ofClipGeometry.
    rewrite (getClipBits_calls _ _ _ _ _ _ Hy). cbn [bind].
    eexists. split; [reflexivity|].
    destruct bounds as [bx1 by1 bx2 by2], rod as [rx1 ry1 rx2 ry2].
    split; vm_compute; reflexivity.
  - eexists. split; [apply (getClipBits_calls _ _ _ _ _ _ Hy)|].
    split; vm_compute; reflexivity.
Qed.

Lemma geometry_round_trip_witness :
  exists b,
    ImageBase_ofClipGeometry (sampleClip (Some sampleEffect) []) (double_of_Z 1)
      (double_of_Z 1)
      {| OfxCore.x1 := 0; OfxCore.y1 := 0; OfxCore.x2 := 1920; OfxCore.y2 := 1080 |}
      {| OfxCore.x1 := -8; OfxCore.y1 := -8; OfxCore.x2 := 1928; OfxCore.y2 := 1088 |}
      (-7680) kOfxImageFieldNone "frame-1" = Ok b
    /\ getBounds (built b)
       = Ok {| OfxCore.x1 := 0; OfxCore.y1 := 0; OfxCore.x2 := 1920; OfxCore.y2 := 1080 |}
    /\ getROD (built b)
       = Ok {| OfxCore.x1 := -8; OfxCore.y1 := -8; OfxCore.x2 := 1928;
               OfxCore.y2 := 1088 |}.
Proof.
  refine (proj1 (geometry_round_trip (sampleClip (Some sampleEffect) [])
                   "OfxBitDepthFloat" kOfxImageComponentNone
                   "OfxImagePreMultiplied" (double_of_Z 2) _) _ _ _ _ _ _ _).
  vm_compute. repeat split; reflexivity.
Defined.

(** X14: the constructors of [Image] and [Texture] keep what the base
    constructor stored (the four values taken from the clip, the bounds and
    the region of definition) and add their own keys: the data pointer, null
    unless given, and the texture index and target, -1 unless given. *)
Theorem subclass_constructors (instance : ClipInstance)
    (depth comps premult : string) (aspect : double) :
  clipYields instance depth comps premult aspect ->
  (exists b, Image_ofClip instance = Ok b
             /\ snapshots (built b) depth comps premult aspect
             /\ stored (built b) kOfxImagePropData = Some (Property.PointerValues [0]))
  /\ (exists b, Texture_ofClip instance = Ok b
                /\ snapshots (built b) depth comps premult aspect
                /\ stored (built b) kOfxImageEffectPropOpenGLTextureIndex
                   = Some (Property.IntValues [-1])
                /\ stored (built b) kOfxImageEffectPropOpenGLTextureTarget
                   = Some (Property.IntValues [-1]))
  /\ (forall renderScaleX renderScaleY data bounds rod rowBytes field uniqueIdentifier,
        exists b,
          Image_ofClipGeometry instance renderScaleX renderScaleY data bounds rod
            rowBytes field uniqueIdentifier = Ok b
          /\ snapshots (built b) depth comps premult aspect
          /\ getBounds (built b) = Ok bounds
          /\ getROD (built b) = Ok rod
          /\ stored (built b) kOfxImagePropData = Some (Property.PointerValues [data]))
  /\ (forall renderScaleX renderScaleY index target bounds rod rowBytes field
             uniqueIdentifier,
        exists b,
          Texture_ofClipGeometry instance renderScaleX renderScaleY index target
            bounds rod rowBytes field uniqueIdentifier = Ok b
          /\ snapshots (built b) depth comps premult aspect
          /\ getBounds (built b) = Ok bounds
          /\ getROD (built b) = Ok rod
          /\ stored (built b) kOfxImageEffectPropOpenGLTextureIndex
             = Some (Property.IntValues [index])
          /\ stored (built b) kOfxImageEffectPropOpenGLTextureTarget
             = Some (Property.IntValues [target])).
Proof.
  intros Hy. split; [|split; [|split]].
  - unfold Image_ofClip, ImageBase_ofClip.
    rewrite (getClipBits_calls _ _ _ _ _ _ Hy). cbn [bind].
    eexists. split; [reflexivity|]. repeat split; vm_compute; reflexivity.
  - unfold Texture_ofClip, ImageBase_ofClip.
    rewrite (getClipBits_calls _ _ _ _ _ _ Hy). cbn [bind].
    eexists. split; [reflexivity|]. repeat split; vm_compute; reflexivity.
  - intros. unfold Image_ofClipGeometry, ImageBase_ofClipGeometry.
    rewrite (getClipBits_calls _ _ _ _ _ _ Hy). cbn [bind].
    eexists. split; [reflexivity|].
    destruct bounds as [bx1 by1 bx2 by2], rod as [rx1 ry1 rx2 ry2].
    repeat split; vm_compute; reflexivity.
  - intros. unfold Texture_ofClipGeometry, ImageBase_ofClipGeometry.
    rewrite (getClipBits_calls _ _ _ _ _ _ Hy). cbn [bind].
    eexists. split; [reflexivity|].
    destruct bounds as [bx1 by1 bx2 by2], rod as [rx1 ry1 rx2 ry2].
    repeat split; vm_compute; reflexivity.
Qed.

Lemma subclass_constructors_witness :
  exists b, Image_ofClip (sampleClip (Some sampleEffect) []) = Ok b
            /\ snapshots (built b) "OfxBitDepthFloat" kOfxImageComponentNone
                 "OfxImagePreMultiplied" (double_of_Z 2)
            /\ stored (built b) kOfxImagePropData = Some (Property.PointerValues [0]).
Proof.
  refine (proj1 (subclass_constructors (sampleClip (Some sampleEffect) [])
                   "OfxBitDepthFloat" kOfxImageComponentNone
                   "OfxImagePreMultiplied" (double_of_Z 2) _)).
  vm_compute. repeat split; reflexivity.
Defined.

(** ** Reference counting in any order *)

Lemma netReferences_snoc (ops : list RefOp) (op : RefOp) :
  netReferences (ops ++ [op])
  = netReferences ops + match op with AddRef => 1 | Release => -1 end.
Proof.
  induction ops as [|first ops IH]; [destruct op; reflexivity|].
  destruct first; cbn [app netReferences]; rewrite IH; lia.
Qed.

Lemma netReferences_length (ops : list RefOp) :
  netReferences ops <= Z.of_nat (length ops).
Proof.
  induction ops as [|first ops IH]; [reflexivity|].
  destruct first; cbn [netReferences length]; lia.
Qed.

(** X15: after any sequence of [addReference] and [releaseReference]
    calls on an image whose count was positive, in whatever order and short
    enough for the [int] counter not to pass [INT_MAX], if every call had a
    defined outcome then either the image lives, its destructor has not run,
    its properties are untouched and its count is the initial count plus the
    references added less those released, which is positive; or the image is
    gone and its destructor has run exactly once. *)
Theorem reference_count_any_order (img : ImageBase) (ops : list RefOp) (cell : Cell) :
  0 < _referenceCount img ->
  _referenceCount img + Z.of_nat (length ops) <= INT_MAX ->
  runRefOps ops (allocate img) = Ok cell ->
  match object cell with
  | Some live =>
      destructorRuns cell = 0%nat
      /\ imageProps live = imageProps img
      /\ _referenceCount live = _referenceCount img + netReferences ops
      /\ 0 < _referenceCount live
  | None => destructorRuns cell = 1%nat
  end.
Proof.
  intros Hpos. revert cell.
  induction ops as [|op ops IH] using rev_ind; intros cell Hbound.
  - intros [= <-]. cbn [allocate object destructorRuns netReferences].
    repeat split; [lia | exact Hpos].
  - rewrite length_app in Hbound. cbn [length] in Hbound.
    unfold runRefOps. rewrite foldl_app. cbn [foldl].
    fold (runRefOps ops (allocate img)).
    destruct (runRefOps ops (allocate img)) as [before| |]; cbn [refStep bind];
      try discriminate.
    specialize (IH before ltac:(lia) eq_refl). rewrite netReferences_snoc.
    pose proof (netReferences_length ops) as Hnet.
    destruct before as [[live|] runs]; cbn [object destructorRuns] in IH.
    + destruct IH as (Hruns & Hprops & Hcount & Hlive).
      destruct op.
      * unfold addReference. cbn [object destructorRuns].
        rewrite wrapInt_in_range by (unfold INT_MIN; lia). intros [= <-].
        cbn [object destructorRuns withCount imageProps _referenceCount].
        repeat split; [exact Hruns | exact Hprops | lia | lia].
      * unfold releaseReference. cbn [object destructorRuns].
        cbn [withCount _referenceCount].
        rewrite wrapInt_in_range by (unfold INT_MIN; lia).
        case_decide as Hzero; intros [= <-];
          cbn [object destructorRuns withCount imageProps _referenceCount] in *.
        -- rewrite Hruns. reflexivity.
        -- repeat split; [exact Hruns | exact Hprops | lia | lia].
    + destruct op; cbn; discriminate.
Qed.

Lemma reference_count_any_order_witness :
  runRefOps [AddRef; Release; AddRef; AddRef; Release] (allocate ImageBase_new)
  = Ok {| object := Some (withCount 2 ImageBase_new); destructorRuns := 0 |}
  /\ _referenceCount (withCount 2 ImageBase_new)
     = _referenceCount ImageBase_new
       + netReferences [AddRef; Release; AddRef; AddRef; Release].
Proof.
  assert (Hrun : runRefOps [AddRef; Release; AddRef; AddRef; Release]
                   (allocate ImageBase_new)
                 = Ok {| object := Some (withCount 2 ImageBase_new);
                         destructorRuns := 0 |}) by reflexivity.
  split; [exact Hrun|].
  assert (Hbound : _referenceCount ImageBase_new
                   + Z.of_nat (length [AddRef; Release; AddRef; AddRef; Release])
                   <= INT_MAX) by (vm_compute; discriminate).
  pose proof (reference_count_any_order ImageBase_new
                [AddRef; Release; AddRef; AddRef; Release] _ eq_refl Hbound Hrun) as H.
  apply H.
Defined.

(** ** What the multi-element readers leave alone *)

Lemma poke_ok {A : Type} (values values' : list A) (i : nat) (v : A) :
  poke values i v = Ok values' ->
  length values' = length values
  /\ forall j, j <> i -> values' !! j = values !! j.
Proof.
  unfold poke. case_decide; [|discriminate]. intros [= <-]. split.
  - apply length_insert.
  - intros j Hj. apply list_lookup_insert_ne. congruence.
Qed.

Lemma poke_twice_ok {A : Type} (values values' : list A) (v w : A) :
  (values0 <-- poke values 0 v ;; poke values0 1 w) = Ok values' ->
  length values' = length values
  /\ forall j, (2 <= j)%nat -> values' !! j = values !! j.
Proof.
  destruct (poke values 0 v) as [values0| |] eqn:H0; cbn [bind]; try discriminate.
  intros H1. apply poke_ok in H0 as [Hlen0 Hrest0].
  apply poke_ok in H1 as [Hlen1 Hrest1]. split; [congruence|].
  intros j Hj. rewrite Hrest1 by lia. apply Hrest0. lia.
Qed.

(** X3: whatever the key and the count, a multi-element reader that
    returns has kept the length of the caller's buffer and every element
    from index 2 on; the string and the integer reader have kept every
    element but the first. *)
Theorem multi_readers_footprint (c : ClipInstance) (name : string) (n : Z) :
  (forall values values',
     getDoublePropertyN c name values n = Ok values' ->
     length values' = length values
     /\ forall j, (2 <= j)%nat -> values' !! j = values !! j)
  /\ (forall values values',
        getIntPropertyN c name values n = Ok values' ->
        length values' = length values
        /\ forall j, (1 <= j)%nat -> values' !! j = values !! j)
  /\ (forall values values',
        getStringPropertyN c name values n = Ok values' ->
        length values' = length values
        /\ forall j, (1 <= j)%nat -> values' !! j = values !! j).
Proof.
  assert (Hone : forall (A : Type) (values values' : list A) (v : A),
            poke values 0 v = Ok values' ->
            length values' = length values
            /\ forall j, (1 <= j)%nat -> values' !! j = values !! j).
  { intros A values values' v H. apply poke_ok in H as [Hlen Hrest].
    split; [exact Hlen|]. intros j Hj. apply Hrest. lia. }
  assert (Hwide : forall (A : Type) (values values' : list A) (v : A),
            poke values 0 v = Ok values' ->
            length values' = length values
            /\ forall j, (2 <= j)%nat -> values' !! j = values !! j).
  { intros A values values' v H. apply Hone in H as [Hlen Hrest].
    split; [exact Hlen|]. intros j Hj. apply Hrest. lia. }
  split; [|split]; intros values values'.
  - unfold getDoublePropertyN.
    repeat (destruct (String.eqb name _);
            [case_decide; [discriminate|];
             first [apply Hwide | apply poke_twice_ok]|]).
    discriminate.
  - unfold getIntPropertyN. case_decide; [discriminate|].
    destruct (getIntProperty c name 0) as [v| |]; cbn [bind]; try discriminate.
    apply Hone.
  - unfold getStringPropertyN. case_decide; [intros [= <-]; auto|].
    case_decide; [discriminate|].
    repeat (destruct (String.eqb name _); [apply Hone|]).
    discriminate.
Qed.
